(** * Decypharr download client: a shallow embedding

    Model of [src/media_manager/torrent/decypharr.py], class
    [DecypharrDownloadClient].  The client object, the requests it sends and
    the records it logs are threaded through a state-and-exception monad;
    the remote service is a function from the requests sent so far and the
    current request to what [session.request] does (return a response or
    raise). *)

From stdpp Require Import gmap strings list pretty.
From Stdlib Require Import ZArith Ascii String.

Set Warnings "-register-all".
Set Default Proof Using "Type".
Open Scope Z_scope.

(** ** Values *)

(** What [response.json()] can return.  A float is kept as mantissa and
    exponent; only its truth value and its type name are observed here. *)
Inductive json :=
| JNull
| JBool (b : bool)
| JInt (z : Z)
| JFloat (m e : Z)
| JStr (s : string)
| JArr (l : list json)
| JObj (d : gmap string json).

(** Python truth value: [None], [False], zero, and empty containers are
    false. *)
Definition truthy (v : json) : bool :=
  match v with
  | JNull => false
  | JBool b => b
  | JInt z => negb (z =? 0)
  | JFloat m _ => negb (m =? 0)
  | JStr s => negb (String.eqb s "")
  | JArr l => match l with [] => false | _ => true end
  | JObj d => negb (bool_decide (d = ∅))
  end.

Definition type_name (v : json) : string :=
  match v with
  | JNull => "NoneType"
  | JBool _ => "bool"
  | JInt _ => "int"
  | JFloat _ _ => "float"
  | JStr _ => "str"
  | JArr _ => "list"
  | JObj _ => "dict"
  end.

(** Truth value of an optional string attribute ([None] or [str]). *)
Definition truthy_str (o : option string) : bool :=
  match o with
  | Some s => negb (String.eqb s "")
  | None => false
  end.

(** [a or b] on an optional string with a string default. *)
Definition or_default (o : option string) (dflt : string) : string :=
  match o with
  | Some s => if String.eqb s "" then dflt else s
  | None => dflt
  end.

(** ** Strings: [str.strip] and [str.rstrip] *)

(** Whitespace as [str.strip()] sees it, for code points below 256:
    TAB..CR, FS..US, SPACE, NEL and NBSP. *)
Definition is_space (c : ascii) : bool :=
  let n := N_of_ascii c in
  ((9 <=? n) && (n <=? 13) || (28 <=? n) && (n <=? 32)
   || (n =? 133) || (n =? 160))%N.

Fixpoint lstrip_chars (p : ascii -> bool) (s : string) : string :=
  match s with
  | EmptyString => EmptyString
  | String c r => if p c then lstrip_chars p r else s
  end.

Fixpoint rstrip_chars (p : ascii -> bool) (s : string) : string :=
  match s with
  | EmptyString => EmptyString
  | String c r =>
      let r' := rstrip_chars p r in
      if p c && String.eqb r' "" then EmptyString else String c r'
  end.

Definition strip (s : string) : string :=
  rstrip_chars is_space (lstrip_chars is_space s).
Arguments strip : simpl never.

Definition rstrip_slash (s : string) : string :=
  rstrip_chars (Ascii.eqb "/") s.

(** ** Exceptions *)

Inductive exn_class :=
| Exception
| RuntimeError
| ValueError
| KeyError
| IndexError
| TypeError
| AttributeError
| RequestException
| ConnectionError
| Timeout
| JSONDecodeError
| CookieConflictError.

Global Instance exn_class_eq_dec : EqDecision exn_class.
Proof. solve_decision. Defined.

(** A raised exception: its class, [str(e)], and the exception that was
    being handled when it was raised ([__context__]). *)
Inductive exn :=
| mkExn (cls : exn_class) (msg : string) (context : option exn).

Definition exn_cls (e : exn) : exn_class := let 'mkExn c _ _ := e in c.
Definition exn_str (e : exn) : string := let 'mkExn _ m _ := e in m.
Definition exn_context (e : exn) : option exn := let 'mkExn _ _ c := e in c.

(** [issubclass c base], for the classes above.  requests'
    [JSONDecodeError] derives from both [RequestException] and
    [ValueError], its [CookieConflictError] from [RuntimeError]. *)
Definition issubclass (c base : exn_class) : bool :=
  match base with
  | Exception => true
  | RequestException =>
      match c with
      | RequestException | ConnectionError | Timeout | JSONDecodeError => true
      | _ => false
      end
  | ValueError =>
      match c with
      | ValueError | JSONDecodeError => true
      | _ => false
      end
  | RuntimeError =>
      match c with
      | RuntimeError | CookieConflictError => true
      | _ => false
      end
  | _ => bool_decide (c = base)
  end.

Definition isinstance (e : exn) (base : exn_class) : bool :=
  issubclass (exn_cls e) base.
Arguments isinstance : simpl never.

Inductive Result (A : Type) :=
| Ok (a : A)
| Raise (e : exn).
Arguments Ok {A} a.
Arguments Raise {A} e.

(** ** Records of the surrounding application *)

Inductive TorrentStatus := unknown | downloading | finished | error.

Global Instance TorrentStatus_eq_dec : EqDecision TorrentStatus.
Proof. solve_decision. Defined.

Module IndexerQueryResult.
Record t {Quality : Type} := mk {
  title : string;
  quality : Quality;
  download_url : string;
}.
Arguments t : clear implicits.
Arguments mk {Quality} _ _ _.
End IndexerQueryResult.

Module Torrent.
Record t {Quality : Type} := mk {
  status : TorrentStatus;
  title : string;
  quality : Quality;
  imported : bool;
  hash : string;
}.
Arguments t : clear implicits.
Arguments mk {Quality} _ _ _ _ _.

Definition set_status {Quality} (x : t Quality) (s : TorrentStatus) : t Quality :=
  mk s (title x) (quality x) (imported x) (hash x).
End Torrent.

(** [MediaManagerConfig().torrents.decypharr]; every attribute but the base
    URL may be [None] or empty. *)
Module DecypharrConfig.
Record t := mk {
  base_url : string;
  username : option string;
  password : option string;
  category_name : option string;
  category_save_path : option string;
}.
End DecypharrConfig.

(** ** HTTP *)

(** A [params=], [data=] dictionary: insertion order is not observed. *)
Abbreviation form := (gmap string (option string)).

Record Request := mkRequest {
  req_method : string;
  req_url : string;
  req_params : option form;
  req_data : option form;
  req_cookies : option (gmap string string);
  req_timeout : Z;
}.

(** *** The cookie jar of a response

    [response.cookies] is a [RequestsCookieJar]: the cookies in the order
    the jar iterates over them.  A cookie's value is [None] or a string. *)
Record Cookie := mkCookie {
  cookie_name : string;
  cookie_value : option string;
  cookie_domain : string;
  cookie_path : string;
}.

Record CookieJar := mkJar { jar_cookies : list Cookie }.

Global Instance jar_empty : Empty CookieJar := mkJar [].

(** The first cookie of that name, for use in statements: it is [None]
    exactly when the jar holds no cookie of the name. *)
Global Instance jar_lookup : Lookup string Cookie CookieJar := fun name jar =>
  List.find (fun cookie => String.eqb (cookie_name cookie) name) (jar_cookies jar).

(** [CookieConflictError(f"There are multiple cookies with name, {name!r}")],
    for a name that [repr] puts between single quotes as it is. *)
Definition jar_conflict (name : string) : exn :=
  mkExn CookieConflictError
        ("There are multiple cookies with name, '" +:+ name +:+ "'") None.

(** [KeyError(f"name={name!r}, domain=None, path=None")]; the text of a
    [KeyError] is the [repr] of its argument, here between double quotes
    (character 34). *)
Definition jar_key_error (name : string) : exn :=
  mkExn KeyError
        (String "034"%char EmptyString
         +:+ "name='" +:+ name +:+ "', domain=None, path=None"
         +:+ String "034"%char EmptyString) None.

(** The loop of [_find_no_duplicates(name)], from the value found so far. *)
Fixpoint find_no_duplicates (l : list Cookie) (name : string)
    (toReturn : option string) : Result (option string) :=
  match l with
  | [] => Ok toReturn
  | cookie :: rest =>
      if String.eqb (cookie_name cookie) name then
        match toReturn with
        | Some _ => Raise (jar_conflict name)
        | None => find_no_duplicates rest name (cookie_value cookie)
        end
      else find_no_duplicates rest name toReturn
  end.

(** [jar[name]]: the value is returned only if it is true (a non-empty
    string). *)
Definition jar_getitem (jar : CookieJar) (name : string) : Result string :=
  match find_no_duplicates (jar_cookies jar) name None with
  | Raise e => Raise e
  | Ok toReturn =>
      if truthy_str toReturn then
        match toReturn with
        | Some v => Ok v
        | None => Raise (jar_key_error name)
        end
      else Raise (jar_key_error name)
  end.

(** [name in jar]: [jar[name]] is tried; a [KeyError] gives [False], a
    [CookieConflictError] gives [True]. *)
Definition jar_contains (jar : CookieJar) (name : string) : Result bool :=
  match jar_getitem jar name with
  | Ok _ => Ok true
  | Raise e =>
      if isinstance e KeyError then Ok false
      else if isinstance e CookieConflictError then Ok true
      else Raise e
  end.

Record Response := mkResponse {
  status_code : Z;
  text : string;
  cookies : CookieJar;
  (** what [response.json()] does on this body *)
  json_result : Result json;
}.

(** ** Logging *)

Inductive Level := INFO | WARNING | ERROR.

(** A formatted record; [MsgValue p v] stands for [f"{p}{v}"] with [v] a
    parsed JSON value. *)
Inductive log_message :=
| Msg (s : string)
| MsgValue (prefix : string) (v : json).

Record LogRecord := mkLog { levelname : Level; message : log_message }.

(** ** The client object and the machine state *)

Record Session := mkSession { session_timeout : Z }.

Record DecypharrDownloadClient := mkClient {
  config : DecypharrConfig.t;
  base_url : string;
  timeout : Z;
  session : Session;
  _cookie : option string;
}.

(** [trace]: requests handed to the session, oldest first. *)
Record State := mkState {
  self : DecypharrDownloadClient;
  trace : list Request;
  logs : list LogRecord;
}.

Definition set_cookie (st : State) (c : option string) : State :=
  let s := self st in
  mkState (mkClient (config s) (base_url s) (timeout s) (session s) c)
          (trace st) (logs st).

(** ** The monad *)

Definition M (A : Type) : Type := State -> Result A * State.

Global Instance M_ret : MRet M := fun A a st => (Ok a, st).

Global Instance M_bind : MBind M := fun A B k m st =>
  match m st with
  | (Ok a, st') => k a st'
  | (Raise e, st') => (Raise e, st')
  end.

Definition raise {A} (e : exn) : M A := fun st => (Raise e, st).

(** [try: body / except base as e: handler e] *)
Definition try_except {A} (body : M A) (base : exn_class) (handler : exn -> M A) : M A :=
  fun st =>
    match body st with
    | (Ok a, st') => (Ok a, st')
    | (Raise e, st') =>
        if isinstance e base then handler e st' else (Raise e, st')
    end.

Definition get_self : M DecypharrDownloadClient := fun st => (Ok (self st), st).

(** The state after one more request went out, and after one more record
    was logged. *)
Definition sent (st : State) (r : Request) : State :=
  mkState (self st) (trace st ++ [r]) (logs st).

Definition logged (st : State) (l : Level) (m : log_message) : State :=
  mkState (self st) (trace st) (logs st ++ [mkLog l m]).

Definition log (l : Level) (m : log_message) : M unit := fun st =>
  (Ok tt, logged st l m).

(** Line 129: [{"SID": self._cookie} if self._cookie else None]. *)
Definition sid_cookies (me : DecypharrDownloadClient) : option (gmap string string) :=
  match _cookie me with
  | Some c => if truthy_str (Some c) then Some {["SID" := c]} else None
  | None => None
  end.

(** Class constants. *)
Definition DOWNLOADING_STATE : list string :=
  ["allocating"; "downloading"; "metaDL"; "pausedDL"; "queuedDL"; "stalledDL";
   "checkingDL"; "forcedDL"; "moving"; "stoppedDL"; "forcedMetaDL"].
Definition FINISHED_STATE : list string :=
  ["uploading"; "pausedUP"; "queuedUP"; "stalledUP"; "checkingUP"; "forcedUP";
   "stoppedUP"; "completed"].
Definition ERROR_STATE : list string :=
  ["missingFiles"; "error"; "checkingResumeData"].
Definition UNKNOWN_STATE : list string := ["unknown"].

(** [v in t] for a tuple of strings: only a string compares equal to one. *)
Definition py_in (v : json) (t : list string) : bool :=
  match v with
  | JStr s => bool_decide (s ∈ t)
  | _ => false
  end.

(** [v[0]] *)
Definition getitem0 (v : json) : Result json :=
  match v with
  | JArr (x :: _) => Ok x
  | JArr [] => Raise (mkExn IndexError "list index out of range" None)
  | JStr (String c _) => Ok (JStr (String c EmptyString))
  | JStr EmptyString => Raise (mkExn IndexError "string index out of range" None)
  | JObj _ => Raise (mkExn KeyError "0" None)
  | _ => Raise (mkExn TypeError
                  ("'" +:+ type_name v +:+ "' object is not subscriptable") None)
  end.

(** [v.get(key, dflt)] *)
Definition dict_get (v : json) (key : string) (dflt : json) : Result json :=
  match v with
  | JObj d => Ok (default dflt (d !! key))
  | _ => Raise (mkExn AttributeError
                  ("'" +:+ type_name v +:+ "' object has no attribute 'get'") None)
  end.

Definition lift {A} (r : Result A) : M A := fun st => (r, st).

(** ** The client's methods *)

Section Client.
Context {Quality : Type}.

(** [media_manager.torrent.utils.get_torrent_hash], declared outside this
    file: it returns the content hash of a query result, or raises. *)
Variable get_torrent_hash : IndexerQueryResult.t Quality -> Result string.

(** The remote service and the transport: what [session.request] does on
    a request, given the requests sent before it. *)
Variable remote : list Request -> Request -> Result Response.

Definition session_request (r : Request) : M Response := fun st =>
  (remote (trace st) r, sent st r).

Definition _authenticate : M unit :=
  me ← get_self;
  let url := base_url me +:+ "/api/v2/auth/login" in
  let data : form :=
    <["password" := DecypharrConfig.password (config me)]>
      {["username" := DecypharrConfig.username (config me)]} in
  try_except
    (response ← session_request
                  (mkRequest "POST" url None (Some data) None (timeout me));
     if status_code response =? 403 then
       raise (mkExn RuntimeError "Invalid Decypharr username or password" None)
     else if negb (status_code response =? 200) then
       raise (mkExn RuntimeError
                ("Authentication failed: " +:+ text response) None)
     else
       has_sid ← lift (jar_contains (cookies response) "SID");
       if has_sid : bool then
         sid ← lift (jar_getitem (cookies response) "SID");
         (fun st => (Ok tt, set_cookie st (Some sid)));;
         log INFO (Msg "Successfully authenticated with Decypharr")
       else mret tt)
    RequestException
    (fun e =>
       log ERROR (Msg ("Failed to authenticate with Decypharr: " +:+ exn_str e));;
       raise (mkExn RuntimeError
                ("Decypharr authentication failed: " +:+ exn_str e) (Some e))).

(** The constructor, run with the requests and log records that exist
    before it.  On [Raise] no client object is handed to the caller. *)
Definition __init__ (cfg : DecypharrConfig.t)
    (tr : list Request) (lg : list LogRecord)
    : Result DecypharrDownloadClient * State :=
  let me := mkClient cfg (rstrip_slash (DecypharrConfig.base_url cfg))
                     30 (mkSession 30) None in
  ((if truthy_str (DecypharrConfig.username cfg)
       && truthy_str (DecypharrConfig.password cfg)
    then _authenticate else mret tt);;
   me ← get_self;
   log INFO (Msg ("Decypharr client initialized: " +:+ base_url me));;
   mret me) (mkState me tr lg).

Definition _request (method endpoint : string)
    (params data : option form) : M Response :=
  me ← get_self;
  let url := base_url me +:+ endpoint in
  let cookies := sid_cookies me in
  try_except
    (response ← session_request
                  (mkRequest method url params data cookies (timeout me));
     if status_code response =? 403 then
       raise (mkExn RuntimeError
                "Decypharr authentication required or invalid" None)
     else if status_code response >=? 400 then
       raise (mkExn RuntimeError
                ("Decypharr API error " +:+ pretty (status_code response)
                 +:+ ": " +:+ text response) None)
     else mret response)
    RequestException
    (fun e =>
       log ERROR (Msg ("Decypharr request failed: " +:+ exn_str e));;
       raise (mkExn RuntimeError
                ("Decypharr request failed: " +:+ exn_str e) (Some e))).

(** Lines 274-285: the chain of membership tests on the state label. *)
Definition resolve_state (state : json) : M TorrentStatus :=
  if py_in state DOWNLOADING_STATE then mret downloading
  else if py_in state FINISHED_STATE then mret finished
  else if py_in state ERROR_STATE then mret error
  else if py_in state UNKNOWN_STATE then mret unknown
  else
    log WARNING (MsgValue "Unknown Decypharr state: " state);;
    mret unknown.

Definition get_torrent_status (torrent : Torrent.t Quality) : M TorrentStatus :=
  let endpoint := "/api/v2/torrents/info" in
  let params : form := {["hashes" := Some (Torrent.hash torrent)]} in
  response ← _request "GET" endpoint (Some params) None;
  parsed ← try_except
             (torrents ← lift (json_result response); mret (Some torrents))
             ValueError
             (fun e =>
                log ERROR (Msg ("Failed to parse Decypharr response: "
                                +:+ exn_str e));;
                mret None);
  match parsed with
  | None => mret unknown
  | Some torrents =>
      if negb (truthy torrents) then
        log WARNING (Msg ("No information found for torrent: "
                          +:+ Torrent.hash torrent));;
        mret unknown
      else
        torrent_info ← lift (getitem0 torrents);
        state ← lift (dict_get torrent_info "state" (JStr "unknown"));
        resolve_state state
  end.

(** The form body of a submission (lines 182-193). *)
Definition submission_data (cfg : DecypharrConfig.t)
    (indexer_result : IndexerQueryResult.t Quality) : form :=
  let category := or_default (DecypharrConfig.category_name cfg) "movies" in
  let data : form :=
    <["category" := Some category]>
      {["urls" := Some (IndexerQueryResult.download_url indexer_result)]} in
  if truthy_str (DecypharrConfig.category_save_path cfg)
  then <["savepath" := DecypharrConfig.category_save_path cfg]> data
  else data.

Definition download_torrent (indexer_result : IndexerQueryResult.t Quality)
    : M (Torrent.t Quality) :=
  log INFO (Msg ("Adding torrent to Decypharr: "
                 +:+ IndexerQueryResult.title indexer_result));;
  torrent_hash ← lift (get_torrent_hash indexer_result);
  me ← get_self;
  let endpoint := "/api/v2/torrents/add" in
  let data := submission_data (config me) indexer_result in
  response ← _request "POST" endpoint None (Some data);
  let response_text := strip (text response) in
  if negb (String.eqb response_text "Ok.") then
    let error_msg := "Failed to add torrent to Decypharr: " +:+ response_text in
    log ERROR (Msg error_msg);;
    raise (mkExn RuntimeError error_msg None)
  else
    log INFO (Msg ("Successfully added torrent to Decypharr: " +:+ torrent_hash));;
    let torrent :=
      Torrent.mk unknown
                 (IndexerQueryResult.title indexer_result)
                 (IndexerQueryResult.quality indexer_result)
                 false
                 torrent_hash in
    try_except
      (s ← get_torrent_status torrent; mret (Torrent.set_status torrent s))
      Exception
      (fun e =>
         log WARNING (Msg ("Could not get initial status: " +:+ exn_str e));;
         mret torrent).

Definition remove_torrent (torrent : Torrent.t Quality) (delete_data : bool)
    : M unit :=
  log INFO (Msg ("Removing torrent from Decypharr: " +:+ Torrent.title torrent));;
  let endpoint := "/api/v2/torrents/delete" in
  let data : form :=
    <["deleteFiles" := Some (if delete_data then "true" else "false")]>
      {["hashes" := Some (Torrent.hash torrent)]} in
  _request "POST" endpoint None (Some data);;
  log INFO (Msg ("Successfully removed torrent: " +:+ Torrent.hash torrent)).

Definition pause_torrent (torrent : Torrent.t Quality) : M unit :=
  log INFO (Msg ("Pausing torrent: " +:+ Torrent.title torrent));;
  let endpoint := "/api/v2/torrents/pause" in
  let data : form := {["hashes" := Some (Torrent.hash torrent)]} in
  _request "POST" endpoint None (Some data);;
  log INFO (Msg ("Successfully paused torrent: " +:+ Torrent.hash torrent)).

Definition resume_torrent (torrent : Torrent.t Quality) : M unit :=
  log INFO (Msg ("Resuming torrent: " +:+ Torrent.title torrent));;
  let endpoint := "/api/v2/torrents/resume" in
  let data : form := {["hashes" := Some (Torrent.hash torrent)]} in
  _request "POST" endpoint None (Some data);;
  log INFO (Msg ("Successfully resumed torrent: " +:+ Torrent.hash torrent)).

Definition get_torrent_files (torrent : Torrent.t Quality) : M json :=
  let endpoint := "/api/v2/torrents/files" in
  let params : form := {["hash" := Some (Torrent.hash torrent)]} in
  response ← _request "GET" endpoint (Some params) None;
  try_except
    (lift (json_result response))
    ValueError
    (fun _ => log ERROR (Msg "Failed to parse files response");; mret (JArr [])).

Definition health_check : M bool :=
  try_except
    (let endpoint := "/api/v2/app/version" in
     response ← _request "GET" endpoint None None;
     let version := strip (text response) in
     log INFO (Msg ("Decypharr health check OK, version: " +:+ version));;
     mret true)
    Exception
    (fun e =>
       log ERROR (Msg ("Decypharr health check failed: " +:+ exn_str e));;
       mret false).

(** *** A caller

    One call of a lifecycle operation, and a sequence of such calls on the
    same client object.  An exception that reaches the caller ends that
    call only. *)
Inductive operation :=
| Submit (indexer_result : IndexerQueryResult.t Quality)
| Cancel (torrent : Torrent.t Quality) (delete_data : bool)
| Pause (torrent : Torrent.t Quality)
| Resume (torrent : Torrent.t Quality)
| StatusQuery (torrent : Torrent.t Quality)
| ListFiles (torrent : Torrent.t Quality)
| HealthCheck.

Definition call (op : operation) (st : State) : State :=
  match op with
  | Submit r => snd (download_torrent r st)
  | Cancel t d => snd (remove_torrent t d st)
  | Pause t => snd (pause_torrent t st)
  | Resume t => snd (resume_torrent t st)
  | StatusQuery t => snd (get_torrent_status t st)
  | ListFiles t => snd (get_torrent_files t st)
  | HealthCheck => snd (health_check st)
  end.

Definition calls (ops : list operation) (st : State) : State :=
  foldl (fun s op => call op s) st ops.

End Client.

(** ** Requests named in the statements below *)

Definition login_request (me : DecypharrDownloadClient) : Request :=
  mkRequest "POST" (base_url me +:+ "/api/v2/auth/login") None
    (Some (<["password" := DecypharrConfig.password (config me)]>
             {["username" := DecypharrConfig.username (config me)]}))
    None (timeout me).

Definition add_request {Quality} (me : DecypharrDownloadClient)
    (indexer_result : IndexerQueryResult.t Quality) : Request :=
  mkRequest "POST" (base_url me +:+ "/api/v2/torrents/add") None
    (Some (submission_data (config me) indexer_result))
    (sid_cookies me) (timeout me).

Definition info_request (me : DecypharrDownloadClient) (torrent_hash : string)
    : Request :=
  mkRequest "GET" (base_url me +:+ "/api/v2/torrents/info")
    (Some {["hashes" := Some torrent_hash]}) None
    (sid_cookies me) (timeout me).

Definition version_request (me : DecypharrDownloadClient) : Request :=
  mkRequest "GET" (base_url me +:+ "/api/v2/app/version") None None
    (sid_cookies me) (timeout me).

(** The object [__init__] has built when it reaches the credentials test. *)
Definition fresh_client (cfg : DecypharrConfig.t) : DecypharrDownloadClient :=
  mkClient cfg (rstrip_slash (DecypharrConfig.base_url cfg)) 30 (mkSession 30) None.

(** The record [download_torrent] builds before it asks for the status. *)
Definition initial_torrent {Quality} (indexer_result : IndexerQueryResult.t Quality)
    (torrent_hash : string) : Torrent.t Quality :=
  Torrent.mk unknown
             (IndexerQueryResult.title indexer_result)
             (IndexerQueryResult.quality indexer_result)
             false torrent_hash.

(** The response of a status query makes it fall back: [json()] raises a
    [ValueError], or the parsed value is false (an empty array). *)
Definition unparsable_or_empty (response : Response) : bool :=
  match json_result response with
  | Raise e => isinstance e ValueError
  | Ok torrents => negb (truthy torrents)
  end.

(** ** Concrete services and inputs *)

Module Sample.

Definition cfg : DecypharrConfig.t :=
  DecypharrConfig.mk "http://decypharr:8282/" (Some "admin") (Some "secret")
                     (Some "MediaManager") (Some "").

Definition cfg_anonymous : DecypharrConfig.t :=
  DecypharrConfig.mk "http://decypharr:8282" None None None (Some "/mnt/media").

Definition client : DecypharrDownloadClient := fresh_client cfg_anonymous.

Definition st0 : State := mkState client [] [].

Definition movie : IndexerQueryResult.t Z :=
  IndexerQueryResult.mk "Big Buck Bunny" 2
    "magnet:?xt=urn:btih:dd8255ecdc7ca55fb0bbf81323d87062db1f6d1c".

Definition movie_hash : string := "dd8255ecdc7ca55fb0bbf81323d87062db1f6d1c".

Definition get_hash (r : IndexerQueryResult.t Z) : Result string :=
  Ok movie_hash.

Definition torrent : Torrent.t Z := initial_torrent movie movie_hash.

Definition connection_refused : exn :=
  mkExn ConnectionError "connection refused" None.

Definition not_json : exn :=
  mkExn JSONDecodeError "Expecting value: line 1 column 1 (char 0)" None.

(** A plain-text reply. *)
Definition plain (code : Z) (body : string) : Response :=
  mkResponse code body ∅ (Raise not_json).

(** A reply whose body parses to [v]. *)
Definition parsed (code : Z) (body : string) (v : json) : Response :=
  mkResponse code body ∅ (Ok v).

(** A service that answers the n-th request with the n-th entry of a
    script, and is unreachable afterwards. *)
Definition scripted (script : list (Result Response))
    (tr : list Request) (r : Request) : Result Response :=
  default (Raise connection_refused) (script !! List.length tr).

Definition always (outcome : Result Response)
    (tr : list Request) (r : Request) : Result Response := outcome.

(** Services used in the examples. *)

Definition ok_newline : string := "Ok." +:+ String "010"%char EmptyString.

Definition one_downloading : json :=
  JArr [JObj {["state" := JStr "downloading"]}].

(** The JSON text of [one_downloading]; character 34 is the double quote. *)
Definition one_downloading_body : string :=
  let q := String "034"%char EmptyString in
  "[{" +:+ q +:+ "state" +:+ q +:+ ": " +:+ q +:+ "downloading" +:+ q +:+ "}]".

Definition acknowledging : list Request -> Request -> Result Response :=
  scripted [Ok (plain 200 "Ok."); Ok (parsed 200 one_downloading_body one_downloading)].

Definition acknowledging_newline : list Request -> Request -> Result Response :=
  scripted [Ok (plain 200 ok_newline); Ok (parsed 200 one_downloading_body one_downloading)].

Definition acknowledging_then_down : list Request -> Request -> Result Response :=
  scripted [Ok (plain 200 "Ok.")].

Definition forbidden : list Request -> Request -> Result Response :=
  always (Ok (plain 403 "Forbidden")).

Definition broken : list Request -> Request -> Result Response :=
  always (Ok (plain 500 "Internal Server Error")).

Definition down : list Request -> Request -> Result Response :=
  always (Raise connection_refused).

Definition empty_result : list Request -> Request -> Result Response :=
  always (Ok (parsed 200 "[]" (JArr []))).

Definition login_without_cookie : list Request -> Request -> Result Response :=
  always (Ok (plain 200 "Ok.")).

End Sample.

(** ** Vocabulary of the statements *)

(** A computation that leaves the client object as it found it, only adds
    to the requests sent, and sends each new request with the cookies the
    client object prescribes. *)
Definition keeps_context {A} (m : M A) : Prop :=
  forall st,
    self (m st).2 = self st
    ∧ exists new,
        trace (m st).2 = trace st ++ new
        ∧ Forall (fun r => req_cookies r = sid_cookies (self st)) new.

(** The state in which [download_torrent] asks for the first status: the
    announcement is logged, the submission has gone out, the success is
    logged. *)
Definition after_acknowledgment {Quality} (st : State)
    (indexer_result : IndexerQueryResult.t Quality) (torrent_hash : string)
    : State :=
  logged
    (sent
       (logged st INFO
          (Msg ("Adding torrent to Decypharr: "
                +:+ IndexerQueryResult.title indexer_result)))
       (add_request (self st) indexer_result))
    INFO (Msg ("Successfully added torrent to Decypharr: " +:+ torrent_hash)).

(** ** More requests and vocabulary *)

Definition delete_request (me : DecypharrDownloadClient) (torrent_hash : string)
    (delete_data : bool) : Request :=
  mkRequest "POST" (base_url me +:+ "/api/v2/torrents/delete") None
    (Some (<["deleteFiles" := Some (if delete_data then "true" else "false")]>
             {["hashes" := Some torrent_hash]}))
    (sid_cookies me) (timeout me).

Definition pause_request (me : DecypharrDownloadClient) (torrent_hash : string)
    : Request :=
  mkRequest "POST" (base_url me +:+ "/api/v2/torrents/pause") None
    (Some {["hashes" := Some torrent_hash]})
    (sid_cookies me) (timeout me).

Definition resume_request (me : DecypharrDownloadClient) (torrent_hash : string)
    : Request :=
  mkRequest "POST" (base_url me +:+ "/api/v2/torrents/resume") None
    (Some {["hashes" := Some torrent_hash]})
    (sid_cookies me) (timeout me).

Definition files_request (me : DecypharrDownloadClient) (torrent_hash : string)
    : Request :=
  mkRequest "GET" (base_url me +:+ "/api/v2/torrents/files")
    (Some {["hash" := Some torrent_hash]}) None
    (sid_cookies me) (timeout me).

(** The methods and endpoints the lifecycle operations name. *)
Definition api_surface : list (string * string) :=
  [("POST", "/api/v2/torrents/add");
   ("POST", "/api/v2/torrents/delete");
   ("GET", "/api/v2/torrents/info");
   ("POST", "/api/v2/torrents/pause");
   ("POST", "/api/v2/torrents/resume");
   ("GET", "/api/v2/torrents/files");
   ("GET", "/api/v2/app/version")].

(** A request as the dispatch of client [me] builds it for an entry of the
    table. *)
Definition api_request (me : DecypharrDownloadClient) (r : Request) : Prop :=
  req_timeout r = timeout me
  ∧ req_cookies r = sid_cookies me
  ∧ exists method endpoint,
      (method, endpoint) ∈ api_surface
      ∧ req_method r = method
      ∧ req_url r = base_url me +:+ endpoint.

(** A computation that leaves the client object alone, sends only requests
    that satisfy [P] and only appends to the log. *)
Definition confined {A} (P : DecypharrDownloadClient -> Request -> Prop)
    (m : M A) : Prop :=
  forall st,
    self (m st).2 = self st
    ∧ (exists new, trace (m st).2 = trace st ++ new ∧ Forall (P (self st)) new)
    ∧ (exists extra, logs (m st).2 = logs st ++ extra).

(** [n] slashes. *)
Fixpoint slashes (n : nat) : string :=
  match n with
  | O => EmptyString
  | S n => String "/" (slashes n)
  end.

(** The last character of a string, if any. *)
Fixpoint last_char (s : string) : option ascii :=
  match s with
  | EmptyString => None
  | String c EmptyString => Some c
  | String _ r => last_char r
  end.

(** Every character of the string satisfies [p]. *)
Fixpoint all_chars (p : ascii -> bool) (s : string) : bool :=
  match s with
  | EmptyString => true
  | String c r => p c && all_chars p r
  end.

(** ** More concrete services *)

Module Fixture.

Definition sid : string := "8c212779b4abde7A".

Definition sid_jar : CookieJar :=
  mkJar [mkCookie "SID" (Some sid) "decypharr.local" "/"].

Definition login_with_cookie : list Request -> Request -> Result Response :=
  Sample.always (Ok (mkResponse 200 "Ok." sid_jar (Raise Sample.not_json))).



(** Two [SID] cookies, set for different paths. *)
Definition double_jar : CookieJar :=
  mkJar [mkCookie "SID" (Some sid) "decypharr.local" "/";
         mkCookie "lang" (Some "en") "decypharr.local" "/";
         mkCookie "SID" (Some "0f3a") "decypharr.local" "/api"].

Definition login_with_two_cookies : list Request -> Request -> Result Response :=
  Sample.always (Ok (mkResponse 200 "Ok." double_jar (Raise Sample.not_json))).

Definition teapot : list Request -> Request -> Result Response :=
  Sample.always (Ok (Sample.plain 418 "I'm a teapot")).

Definition no_content : list Request -> Request -> Result Response :=
  Sample.always (Ok (Sample.plain 204 "")).

Definition crashing : list Request -> Request -> Result Response :=
  Sample.always (Raise (mkExn TypeError "unhashable type: 'dict'" None)).

Definition cfg_slashes : DecypharrConfig.t :=
  DecypharrConfig.mk "http://decypharr:8282//" None (Some "secret") None None.

Definition no_hash (r : IndexerQueryResult.t Z) : Result string :=
  Raise (mkExn RuntimeError "Failed to download torrent file" None).

(** [s] between double quotes (character 34). *)
Definition quoted (s : string) : string :=
  String "034"%char EmptyString +:+ s +:+ String "034"%char EmptyString.

(** A service that always answers 200 with the given body, which parses to
    the given value. *)
Definition answering (body : string) (v : json)
    : list Request -> Request -> Result Response :=
  Sample.always (Ok (Sample.parsed 200 body v)).

Definition files_body : json :=
  JArr [JObj {["name" := JStr "bbb.mkv"]}].

Definition files_text : string :=
  "[{" +:+ quoted "name" +:+ ": " +:+ quoted "bbb.mkv" +:+ "}]".

Definition two_entries : json :=
  JArr [JObj {["state" := JStr "stalledUP"]}; JObj {["state" := JStr "error"]}].

Definition two_entries_text : string :=
  "[{" +:+ quoted "state" +:+ ": " +:+ quoted "stalledUP" +:+ "}, {"
  +:+ quoted "state" +:+ ": " +:+ quoted "error" +:+ "}]".

Definition numeric_state : json :=
  JArr [JObj {["state" := JInt 3]}].

Definition numeric_state_text : string :=
  "[{" +:+ quoted "state" +:+ ": 3}]".

Definition object_body : json :=
  JObj {["state" := JStr "downloading"]}.

Definition object_text : string :=
  "{" +:+ quoted "state" +:+ ": " +:+ quoted "downloading" +:+ "}".

End Fixture.

(** * Properties *)

(** ** Label tuples *)

(** The four label tuples do not overlap. *)
Lemma state_tuples_disjoint :
  Forall (fun l => (l ∉ FINISHED_STATE) ∧ (l ∉ ERROR_STATE) ∧ (l ∉ UNKNOWN_STATE))
         DOWNLOADING_STATE
  ∧ Forall (fun l => (l ∉ ERROR_STATE) ∧ (l ∉ UNKNOWN_STATE)) FINISHED_STATE
  ∧ Forall (fun l => l ∉ UNKNOWN_STATE) ERROR_STATE.
Proof.
  repeat split; apply (bool_decide_unpack _); vm_compute; exact I.
Qed.

(** ** The cookie jar *)

Lemma find_no_duplicates_raise (l : list Cookie) (name : string)
    (toReturn : option string) (e : exn) :
  find_no_duplicates l name toReturn = Raise e -> e = jar_conflict name.
Proof.
  revert toReturn. induction l as [|cookie rest IH]; intros toReturn; simpl.
  - discriminate.
  - destruct (String.eqb (cookie_name cookie) name); [|apply IH].
    destruct toReturn; [|apply IH]. by intros [= <-].
Qed.

Lemma jar_getitem_cases (jar : CookieJar) (name : string) :
  (exists v, jar_getitem jar name = Ok v ∧ v <> "")
  \/ jar_getitem jar name = Raise (jar_key_error name)
  \/ jar_getitem jar name = Raise (jar_conflict name).
Proof.
  unfold jar_getitem.
  destruct (find_no_duplicates (jar_cookies jar) name None) as [[v|]|e] eqn:Hfind.
  - simpl. destruct (String.eqb_spec v "") as [->|Hne]; simpl.
    + right. by left.
    + left. by exists v.
  - right. by left.
  - right. right. by rewrite (find_no_duplicates_raise _ _ _ _ Hfind).
Qed.

Lemma jar_contains_key_error (jar : CookieJar) (name : string) :
  jar_getitem jar name = Raise (jar_key_error name) ->
  jar_contains jar name = Ok false.
Proof. unfold jar_contains. by intros ->. Qed.

Lemma jar_contains_conflict (jar : CookieJar) (name : string) :
  jar_getitem jar name = Raise (jar_conflict name) ->
  jar_contains jar name = Ok true.
Proof. unfold jar_contains. by intros ->. Qed.

Lemma jar_contains_value (jar : CookieJar) (name v : string) :
  jar_getitem jar name = Ok v -> jar_contains jar name = Ok true.
Proof. unfold jar_contains. by intros ->. Qed.

Lemma find_no_duplicates_absent (l : list Cookie) (name : string)
    (toReturn : option string) :
  List.find (fun cookie => String.eqb (cookie_name cookie) name) l = None ->
  find_no_duplicates l name toReturn = Ok toReturn.
Proof.
  induction l as [|cookie rest IH]; simpl; [reflexivity|].
  destruct (String.eqb (cookie_name cookie) name); [discriminate|exact IH].
Qed.

Lemma jar_getitem_nonempty (jar : CookieJar) (name v : string) :
  jar_getitem jar name = Ok v -> v <> "".
Proof.
  intros Hget.
  destruct (jar_getitem_cases jar name) as [(v' & Hget' & Hne)|[Hget'|Hget']];
    rewrite Hget in Hget'; [|discriminate..].
  by injection Hget' as ->.
Qed.


Lemma find_no_duplicates_second (l : list Cookie) (name v : string) :
  Exists (fun cookie => cookie_name cookie = name) l ->
  find_no_duplicates l name (Some v) = Raise (jar_conflict name).
Proof.
  induction 1 as [cookie l Hname|cookie l _ IH]; simpl.
  - apply String.eqb_eq in Hname. by rewrite Hname.
  - by destruct (String.eqb (cookie_name cookie) name).
Qed.

Lemma find_no_duplicates_doomed (before rest : list Cookie) (name : string) :
  (forall toReturn,
      find_no_duplicates rest name toReturn = Raise (jar_conflict name)) ->
  forall toReturn,
    find_no_duplicates (before ++ rest) name toReturn
    = Raise (jar_conflict name).
Proof.
  intros Hrest. induction before as [|cookie before IH]; intros toReturn; simpl.
  - apply Hrest.
  - destruct (String.eqb (cookie_name cookie) name); [|apply IH].
    destruct toReturn; [reflexivity|apply IH].
Qed.


(** A jar with two cookies of the name, the first of them with a value,
    has conflicting items of that name. *)
Lemma jar_getitem_conflict (before middle after : list Cookie)
    (first second : Cookie) (name v : string) :
  cookie_name first = name ->
  cookie_value first = Some v ->
  cookie_name second = name ->
  jar_getitem (mkJar (before ++ first :: middle ++ second :: after)) name
  = Raise (jar_conflict name).
Proof.
  intros Hfirst Hvalue Hsecond. unfold jar_getitem. simpl.
  rewrite find_no_duplicates_doomed; [reflexivity|].
  intros toReturn. simpl.
  apply String.eqb_eq in Hfirst. rewrite Hfirst.
  destruct toReturn; [reflexivity|]. rewrite Hvalue.
  apply find_no_duplicates_second.
  apply Exists_app. right. by constructor.
Qed.

Lemma jar_lookup_None (jar : CookieJar) (name : string) :
  jar !! name = None -> jar_getitem jar name = Raise (jar_key_error name).
Proof.
  intros Hnone. unfold jar_getitem.
  by rewrite (find_no_duplicates_absent _ _ None Hnone).
Qed.

Ltac run :=
  unfold mbind, M_bind, mret, M_ret, try_except, raise, log, lift, get_self,
    session_request; simpl.

(** ** Combinators keep the connection context *)

Section Keeps.
Context {A B : Type}.

Lemma keeps_ret (a : A) : keeps_context (mret a).
Proof. intros st. split; [reflexivity|]. exists []. by rewrite app_nil_r. Qed.

Lemma keeps_raise (e : exn) : keeps_context (raise (A:=A) e).
Proof. intros st. split; [reflexivity|]. exists []. by rewrite app_nil_r. Qed.

Lemma keeps_lift (r : Result A) : keeps_context (lift r).
Proof. intros st. split; [reflexivity|]. exists []. by rewrite app_nil_r. Qed.

Lemma keeps_bind (m : M A) (k : A -> M B) :
  keeps_context m -> (forall a, keeps_context (k a)) -> keeps_context (m ≫= k).
Proof.
  intros Hm Hk st. unfold mbind, M_bind.
  destruct (Hm st) as [Hself (n1 & Htr & Hall)].
  destruct (m st) as [[a|e] st1]; simpl in *.
  - destruct (Hk a st1) as [Hself2 (n2 & Htr2 & Hall2)].
    split; [congruence|]. exists (n1 ++ n2). split.
    + by rewrite Htr2, Htr, app_assoc.
    + apply Forall_app. split; [done|]. by rewrite <- Hself.
  - split; [done|]. by exists n1.
Qed.

Lemma keeps_try (body : M A) (base : exn_class) (handler : exn -> M A) :
  keeps_context body -> (forall e, keeps_context (handler e)) ->
  keeps_context (try_except body base handler).
Proof.
  intros Hm Hk st. unfold try_except.
  destruct (Hm st) as [Hself (n1 & Htr & Hall)].
  destruct (body st) as [[a|e] st1]; simpl in *.
  - split; [done|]. by exists n1.
  - destruct (isinstance e base); simpl.
    + destruct (Hk e st1) as [Hself2 (n2 & Htr2 & Hall2)].
      split; [congruence|]. exists (n1 ++ n2). split.
      * by rewrite Htr2, Htr, app_assoc.
      * apply Forall_app. split; [done|]. by rewrite <- Hself.
    + split; [done|]. by exists n1.
Qed.

End Keeps.

Lemma keeps_log (l : Level) (m : log_message) : keeps_context (log l m).
Proof. intros st. split; [reflexivity|]. exists []. by rewrite app_nil_r. Qed.

Lemma keeps_get_self : keeps_context get_self.
Proof. intros st. split; [reflexivity|]. exists []. by rewrite app_nil_r. Qed.

Create HintDb keeps.
#[local] Hint Resolve keeps_log keeps_get_self : keeps.
#[local] Hint Resolve keeps_ret keeps_raise keeps_lift : keeps.

Ltac keeps_step :=
  match goal with
  | |- keeps_context (mbind _ _) => apply keeps_bind; [|intros ?]
  | |- keeps_context (try_except _ _ _) => apply keeps_try; [|intros ?]
  | |- keeps_context (if ?b then _ else _) => destruct b
  | |- keeps_context (match ?x with _ => _ end) => destruct x
  | |- keeps_context _ => solve [auto with keeps]
  end.

Section Properties.
Context {Quality : Type}.
Variable get_torrent_hash : IndexerQueryResult.t Quality -> Result string.
Variable remote : list Request -> Request -> Result Response.

(** *** What a dispatch does *)

Lemma _request_eq method endpoint params data st :
  let req := mkRequest method (base_url (self st) +:+ endpoint) params data
               (sid_cookies (self st)) (timeout (self st)) in
  _request remote method endpoint params data st =
  match remote (trace st) req with
  | Ok response =>
      if status_code response =? 403 then
        (Raise (mkExn RuntimeError
                  "Decypharr authentication required or invalid" None),
         sent st req)
      else if status_code response >=? 400 then
        (Raise (mkExn RuntimeError
                  ("Decypharr API error " +:+ pretty (status_code response)
                   +:+ ": " +:+ text response) None),
         sent st req)
      else (Ok response, sent st req)
  | Raise e =>
      if isinstance e RequestException then
        (Raise (mkExn RuntimeError
                  ("Decypharr request failed: " +:+ exn_str e) (Some e)),
         logged (sent st req) ERROR
                (Msg ("Decypharr request failed: " +:+ exn_str e)))
      else (Raise e, sent st req)
  end.
Proof.
  intros req. unfold _request. run. fold req.
  destruct (remote (trace st) req) as [response|e]; simpl.
  - destruct (status_code response =? 403); simpl; [reflexivity|].
    destruct (status_code response >=? 400); reflexivity.
  - destruct (isinstance e RequestException); reflexivity.
Qed.

Lemma keeps__request method endpoint params data :
  keeps_context (_request remote method endpoint params data).
Proof.
  intros st. rewrite _request_eq. cbv zeta.
  match goal with |- context [remote _ ?r] => set (req := r) end.
  assert (Hone : forall (x : State), self x = self st -> trace x = trace st ++ [req] ->
            self x = self st ∧ exists new, trace x = trace st ++ new
              ∧ Forall (fun r => req_cookies r = sid_cookies (self st)) new).
  { intros x Hs Ht. split; [done|]. exists [req]. split; [done|].
    by apply Forall_singleton. }
  destruct (remote (trace st) req) as [response|e].
  - destruct (status_code response =? 403); [by apply Hone|].
    destruct (status_code response >=? 400); by apply Hone.
  - destruct (isinstance e RequestException); by apply Hone.
Qed.

#[local] Hint Resolve keeps__request : keeps.

Lemma keeps_resolve_state state : keeps_context (resolve_state state).
Proof. unfold resolve_state. repeat keeps_step. Qed.

#[local] Hint Resolve keeps_resolve_state : keeps.

Lemma keeps_get_torrent_status (torrent : Torrent.t Quality) :
  keeps_context (get_torrent_status remote torrent).
Proof. unfold get_torrent_status. repeat keeps_step. Qed.

#[local] Hint Resolve keeps_get_torrent_status : keeps.

Lemma keeps_download_torrent r :
  keeps_context (download_torrent get_torrent_hash remote r).
Proof. unfold download_torrent. repeat keeps_step. Qed.

Lemma keeps_remove_torrent (torrent : Torrent.t Quality) delete_data :
  keeps_context (remove_torrent remote torrent delete_data).
Proof. unfold remove_torrent. repeat keeps_step. Qed.

Lemma keeps_pause_torrent (torrent : Torrent.t Quality) :
  keeps_context (pause_torrent remote torrent).
Proof. unfold pause_torrent. repeat keeps_step. Qed.

Lemma keeps_resume_torrent (torrent : Torrent.t Quality) :
  keeps_context (resume_torrent remote torrent).
Proof. unfold resume_torrent. repeat keeps_step. Qed.

Lemma keeps_get_torrent_files (torrent : Torrent.t Quality) :
  keeps_context (get_torrent_files remote torrent).
Proof. unfold get_torrent_files. repeat keeps_step. Qed.

Lemma keeps_health_check : keeps_context (health_check remote).
Proof. unfold health_check. repeat keeps_step. Qed.

(** *** The two larger methods, one step at a time *)

Lemma get_torrent_status_eq (torrent : Torrent.t Quality) st :
  get_torrent_status remote torrent st =
  match _request remote "GET" "/api/v2/torrents/info"
          (Some {["hashes" := Some (Torrent.hash torrent)]}) None st with
  | (Raise e, st1) => (Raise e, st1)
  | (Ok response, st1) =>
      match json_result response with
      | Raise e =>
          if isinstance e ValueError then
            (Ok unknown,
             logged st1 ERROR
                    (Msg ("Failed to parse Decypharr response: " +:+ exn_str e)))
          else (Raise e, st1)
      | Ok torrents =>
          if truthy torrents then
            match getitem0 torrents with
            | Raise e => (Raise e, st1)
            | Ok torrent_info =>
                match dict_get torrent_info "state" (JStr "unknown") with
                | Raise e => (Raise e, st1)
                | Ok state => resolve_state state st1
                end
            end
          else
            (Ok unknown,
             logged st1 WARNING
                    (Msg ("No information found for torrent: "
                          +:+ Torrent.hash torrent)))
      end
  end.
Proof.
  unfold get_torrent_status. run.
  destruct (_request _ _ _ _ _ st) as [[response|e] st1]; [|reflexivity].
  destruct (json_result response) as [torrents|e]; simpl.
  - destruct (truthy torrents); simpl; [|reflexivity].
    destruct (getitem0 torrents) as [torrent_info|e]; [|reflexivity].
    destruct (dict_get torrent_info _ _); reflexivity.
  - destruct (isinstance e ValueError); reflexivity.
Qed.

Lemma download_torrent_eq (r : IndexerQueryResult.t Quality) st :
  download_torrent get_torrent_hash remote r st =
  let st1 := logged st INFO
               (Msg ("Adding torrent to Decypharr: " +:+ IndexerQueryResult.title r)) in
  match get_torrent_hash r with
  | Raise e => (Raise e, st1)
  | Ok h =>
      match _request remote "POST" "/api/v2/torrents/add" None
              (Some (submission_data (config (self st)) r)) st1 with
      | (Raise e, st2) => (Raise e, st2)
      | (Ok response, st2) =>
          if String.eqb (strip (text response)) "Ok." then
            let st3 := logged st2 INFO
                         (Msg ("Successfully added torrent to Decypharr: " +:+ h)) in
            match get_torrent_status remote (initial_torrent r h) st3 with
            | (Ok s, st4) => (Ok (Torrent.set_status (initial_torrent r h) s), st4)
            | (Raise e, st4) =>
                (Ok (initial_torrent r h),
                 logged st4 WARNING
                        (Msg ("Could not get initial status: " +:+ exn_str e)))
            end
          else
            (Raise (mkExn RuntimeError
                      ("Failed to add torrent to Decypharr: "
                       +:+ strip (text response)) None),
             logged st2 ERROR
                    (Msg ("Failed to add torrent to Decypharr: "
                          +:+ strip (text response))))
      end
  end.
Proof.
  unfold download_torrent. run.
  destruct (get_torrent_hash r) as [h|e]; simpl; [|reflexivity].
  destruct (_request _ _ _ _ _ _) as [[response|e] st2]; [|reflexivity].
  destruct (String.eqb (strip (text response)) "Ok."); simpl; [|reflexivity].
  fold (initial_torrent r h).
  destruct (get_torrent_status _ _ _) as [[s|e] st4]; reflexivity.
Qed.

(** *** Status resolution *)

Lemma label_in_one_tuple (label : string) :
  (label ∈ DOWNLOADING_STATE ->
     (label ∉ FINISHED_STATE) ∧ (label ∉ ERROR_STATE) ∧ (label ∉ UNKNOWN_STATE))
  ∧ (label ∈ FINISHED_STATE -> (label ∉ ERROR_STATE) ∧ (label ∉ UNKNOWN_STATE))
  ∧ (label ∈ ERROR_STATE -> label ∉ UNKNOWN_STATE).
Proof.
  destruct state_tuples_disjoint as (Hd & Hf & He).
  rewrite Forall_forall in Hd, Hf, He. auto.
Qed.

(** C1. Status resolution is total and pure on state labels.  Each of the
    labels allocating, downloading, metaDL, pausedDL, queuedDL, stalledDL,
    checkingDL, forcedDL, moving, stoppedDL and forcedMetaDL resolves to
    [downloading]; each of uploading, pausedUP, queuedUP, stalledUP,
    checkingUP, forcedUP, stoppedUP and completed to [finished]; each of
    missingFiles, error and checkingResumeData to [error]; the label
    "unknown" and every label that is none of these to [unknown].  It
    never raises, the value does not depend on the state it runs in, and
    it touches neither the client object nor the requests sent; for a
    label of the table the state is left as it was (a label outside the
    table adds a warning to the log). *)
Theorem resolve_state_total (label : string) (st : State) :
  let downloading_labels :=
    ["allocating"; "downloading"; "metaDL"; "pausedDL"; "queuedDL";
     "stalledDL"; "checkingDL"; "forcedDL"; "moving"; "stoppedDL";
     "forcedMetaDL"] in
  let finished_labels :=
    ["uploading"; "pausedUP"; "queuedUP"; "stalledUP"; "checkingUP";
     "forcedUP"; "stoppedUP"; "completed"] in
  let error_labels := ["missingFiles"; "error"; "checkingResumeData"] in
  exists c st',
    resolve_state (JStr label) st = (Ok c, st')
    ∧ self st' = self st ∧ trace st' = trace st
    ∧ (forall st2, (resolve_state (JStr label) st2).1 = Ok c)
    ∧ (label ∈ downloading_labels -> c = downloading ∧ st' = st)
    ∧ (label ∈ finished_labels -> c = finished ∧ st' = st)
    ∧ (label ∈ error_labels -> c = error ∧ st' = st)
    ∧ (label = "unknown" -> c = unknown ∧ st' = st)
    ∧ ((label ∉ downloading_labels) -> (label ∉ finished_labels) ->
       (label ∉ error_labels) -> c = unknown).
Proof.
  intros downloading_labels finished_labels error_labels.
  change downloading_labels with DOWNLOADING_STATE.
  change finished_labels with FINISHED_STATE.
  change error_labels with ERROR_STATE.
  clear downloading_labels finished_labels error_labels.
  destruct (label_in_one_tuple label) as (Hd & Hf & He).
  assert (Hu : label = "unknown" <-> label ∈ UNKNOWN_STATE).
  { unfold UNKNOWN_STATE. rewrite list_elem_of_singleton. reflexivity. }
  unfold resolve_state, py_in.
  destruct (decide (label ∈ DOWNLOADING_STATE)) as [Id|Nd].
  { rewrite (bool_decide_eq_true_2 _ Id). destruct (Hd Id) as (? & ? & ?).
    exists downloading, st. repeat split; try done; tauto. }
  rewrite (bool_decide_eq_false_2 _ Nd).
  destruct (decide (label ∈ FINISHED_STATE)) as [If|Nf].
  { rewrite (bool_decide_eq_true_2 _ If). destruct (Hf If) as (? & ?).
    exists finished, st. repeat split; try done; tauto. }
  rewrite (bool_decide_eq_false_2 _ Nf).
  destruct (decide (label ∈ ERROR_STATE)) as [Ie|Ne].
  { rewrite (bool_decide_eq_true_2 _ Ie). specialize (He Ie).
    exists error, st. repeat split; try done; tauto. }
  rewrite (bool_decide_eq_false_2 _ Ne).
  destruct (decide (label ∈ UNKNOWN_STATE)) as [Iu|Nu].
  { rewrite (bool_decide_eq_true_2 _ Iu).
    exists unknown, st. repeat split; try done. }
  rewrite (bool_decide_eq_false_2 _ Nu).
  exists unknown, (logged st WARNING (MsgValue "Unknown Decypharr state: " (JStr label))).
  repeat split; try done; tauto.
Qed.

(** *** Submission *)

Lemma add_request_dispatch (r : IndexerQueryResult.t Quality) st response :
  let st1 := logged st INFO
               (Msg ("Adding torrent to Decypharr: " +:+ IndexerQueryResult.title r)) in
  remote (trace st) (add_request (self st) r) = Ok response ->
  status_code response < 400 ->
  _request remote "POST" "/api/v2/torrents/add" None
    (Some (submission_data (config (self st)) r)) st1
  = (Ok response, sent st1 (add_request (self st) r)).
Proof.
  intros st1 Hremote Hcode. rewrite _request_eq. cbv zeta.
  change (trace st1) with (trace st). change (self st1) with (self st).
  fold (add_request (self st) r). rewrite Hremote.
  replace (status_code response =? 403) with false by lia.
  replace (status_code response >=? 400) with false by lia.
  reflexivity.
Qed.

(** C2, amended. When the service answers a submission (status below 400),
    the body is compared with "Ok." after surrounding whitespace is
    stripped: if the stripped body is "Ok.", [download_torrent] returns a
    record that carries the content hash, the title and the quality of the
    query result; otherwise it raises a [RuntimeError] whose message quotes
    the stripped body, and returns no record. *)
Theorem download_torrent_acknowledgment
    (r : IndexerQueryResult.t Quality) (h : string) (st : State)
    (response : Response) :
  get_torrent_hash r = Ok h ->
  remote (trace st) (add_request (self st) r) = Ok response ->
  status_code response < 400 ->
  (strip (text response) = "Ok." ->
     exists t st',
       download_torrent get_torrent_hash remote r st = (Ok t, st')
       ∧ Torrent.hash t = h
       ∧ Torrent.title t = IndexerQueryResult.title r
       ∧ Torrent.quality t = IndexerQueryResult.quality r
       ∧ Torrent.imported t = false)
  ∧ (strip (text response) <> "Ok." ->
     exists st',
       download_torrent get_torrent_hash remote r st
       = (Raise (mkExn RuntimeError
                   ("Failed to add torrent to Decypharr: "
                    +:+ strip (text response)) None), st')).
Proof.
  intros Hhash Hremote Hcode.
  rewrite download_torrent_eq. cbv zeta. rewrite Hhash.
  rewrite (add_request_dispatch _ _ _ Hremote Hcode).
  split; intros Hbody.
  - rewrite Hbody. simpl.
    destruct (get_torrent_status _ _ _) as [[s|e] st4];
      eexists _, _; (split; [reflexivity|]); repeat split.
  - apply String.eqb_neq in Hbody. rewrite Hbody. eexists. reflexivity.
Qed.

(** C6. After an acknowledged submission, whatever exception the status
    query raises is logged as a warning and [download_torrent] still
    returns the record it has built, with status [unknown]. *)
Theorem download_torrent_survives_status_failure
    (r : IndexerQueryResult.t Quality) (h : string) (st st4 : State)
    (response : Response) (e : exn) :
  get_torrent_hash r = Ok h ->
  remote (trace st) (add_request (self st) r) = Ok response ->
  status_code response < 400 ->
  strip (text response) = "Ok." ->
  get_torrent_status remote (initial_torrent r h) (after_acknowledgment st r h)
  = (Raise e, st4) ->
  download_torrent get_torrent_hash remote r st
  = (Ok (initial_torrent r h),
     logged st4 WARNING (Msg ("Could not get initial status: " +:+ exn_str e)))
  ∧ Torrent.status (initial_torrent r h) = unknown.
Proof.
  intros Hhash Hremote Hcode Hbody Hstatus.
  split; [|reflexivity].
  rewrite download_torrent_eq. cbv zeta. rewrite Hhash.
  rewrite (add_request_dispatch _ _ _ Hremote Hcode), Hbody. simpl.
  fold (after_acknowledgment st r h). rewrite Hstatus. reflexivity.
Qed.

Lemma download_torrent_first_request (r : IndexerQueryResult.t Quality) h st :
  get_torrent_hash r = Ok h ->
  exists rest,
    trace (download_torrent get_torrent_hash remote r st).2
    = trace st ++ add_request (self st) r :: rest.
Proof.
  intros Hhash. rewrite download_torrent_eq. cbv zeta. rewrite Hhash.
  set (st1 := logged st INFO _).
  pose proof (_request_eq "POST" "/api/v2/torrents/add" None
                (Some (submission_data (config (self st)) r)) st1) as Heq.
  cbv zeta in Heq. change (trace st1) with (trace st) in Heq.
  change (self st1) with (self st) in Heq.
  fold (add_request (self st) r) in Heq.
  assert (Hsent : exists res st2 extra,
             _request remote "POST" "/api/v2/torrents/add" None
               (Some (submission_data (config (self st)) r)) st1 = (res, st2)
             ∧ st2 = mkState (self st) (trace st ++ [add_request (self st) r])
                             (logs st1 ++ extra)).
  { rewrite Heq. destruct (remote _ _) as [response|e].
    - destruct (status_code response =? 403);
        [|destruct (status_code response >=? 400)];
        eexists _, _, []; (split; [reflexivity|]);
        unfold sent; simpl; by rewrite app_nil_r.
    - destruct (isinstance e RequestException).
      + eexists _, _, [_]; split; reflexivity.
      + eexists _, _, []; (split; [reflexivity|]);
          unfold sent; simpl; by rewrite app_nil_r. }
  destruct Hsent as (res & st2 & extra & -> & Hst2).
  destruct res as [response|e]; [|exists []; by rewrite Hst2].
  destruct (String.eqb _ _); [|exists []; by rewrite Hst2].
  set (st3 := logged st2 INFO _).
  destruct (keeps_get_torrent_status (initial_torrent r h) st3)
    as [_ (new & Htr & _)].
  destruct (get_torrent_status _ _ _) as [[s|e] st4]; simpl in *;
    exists new; rewrite Htr, Hst2; simpl; by rewrite <- app_assoc.
Qed.

(** C8. The request a submission sends is a POST to the add endpoint whose
    form carries the source locator under [urls], the configured category
    name under [category] (or "movies" when the name is unset or empty),
    and a [savepath] field exactly when the configured save path is
    non-empty. *)
Theorem submission_form (r : IndexerQueryResult.t Quality) (h : string) (st : State) :
  get_torrent_hash r = Ok h ->
  exists req d,
    trace (download_torrent get_torrent_hash remote r st).2 !! List.length (trace st)
    = Some req
    ∧ req_method req = "POST"
    ∧ req_url req = base_url (self st) +:+ "/api/v2/torrents/add"
    ∧ req_data req = Some d
    ∧ d !! "urls" = Some (Some (IndexerQueryResult.download_url r))
    ∧ (forall c, DecypharrConfig.category_name (config (self st)) = Some c ->
                 c <> "" -> d !! "category" = Some (Some c))
    ∧ (DecypharrConfig.category_name (config (self st)) = None
       ∨ DecypharrConfig.category_name (config (self st)) = Some "" ->
       d !! "category" = Some (Some "movies"))
    ∧ (forall p, DecypharrConfig.category_save_path (config (self st)) = Some p ->
                 p <> "" -> d !! "savepath" = Some (Some p))
    ∧ (DecypharrConfig.category_save_path (config (self st)) = None
       ∨ DecypharrConfig.category_save_path (config (self st)) = Some "" ->
       d !! "savepath" = None).
Proof.
  intros Hhash.
  destruct (download_torrent_first_request r h st Hhash) as [rest Htr].
  exists (add_request (self st) r), (submission_data (config (self st)) r).
  split.
  { rewrite Htr. rewrite lookup_app_r by lia.
    by rewrite Nat.sub_diag. }
  do 3 (split; [reflexivity|]).
  unfold submission_data.
  destruct (config (self st)) as [bu us pw cn sp]; simpl.
  assert (Hsp : forall (d0 : form), d0 !! "savepath" = None ->
            forall k, k <> "savepath" ->
            (if truthy_str sp then <["savepath" := sp]> d0 else d0) !! k = d0 !! k).
  { intros d0 _ k Hk. destruct (truthy_str sp); [|done].
    by rewrite lookup_insert_ne. }
  repeat split.
  - rewrite Hsp by done. reflexivity.
  - intros c -> Hc. rewrite Hsp by done. simpl.
    apply String.eqb_neq in Hc. by rewrite Hc.
  - intros [->| ->]; by rewrite Hsp.
  - intros p -> Hp. simpl. apply String.eqb_neq in Hp. rewrite Hp. simpl.
    by rewrite lookup_insert_eq.
  - intros [->| ->]; reflexivity.
Qed.

(** *** Status query *)

(** C3, amended. When the dispatch of a status query returns a response
    (status below 400) whose body does not parse ([json()] raises a
    [ValueError]) or parses to an empty result, [get_torrent_status]
    returns [unknown] and leaves the client object alone.  A response with
    status 400 or above and a transport failure are not caught: they reach
    the caller as a [RuntimeError]. *)
Theorem get_torrent_status_degrades (torrent : Torrent.t Quality) (st : State) :
  let req := info_request (self st) (Torrent.hash torrent) in
  (forall response,
      remote (trace st) req = Ok response ->
      status_code response < 400 ->
      unparsable_or_empty response = true ->
      exists st',
        get_torrent_status remote torrent st = (Ok unknown, st')
        ∧ self st' = self st)
  ∧ (forall response,
        remote (trace st) req = Ok response ->
        400 <= status_code response ->
        exists e st',
          get_torrent_status remote torrent st = (Raise e, st')
          ∧ exn_cls e = RuntimeError)
  ∧ (forall cause,
        remote (trace st) req = Raise cause ->
        isinstance cause RequestException = true ->
        exists st',
          get_torrent_status remote torrent st
          = (Raise (mkExn RuntimeError
                      ("Decypharr request failed: " +:+ exn_str cause)
                      (Some cause)), st')).
Proof.
  intros req.
  pose proof (_request_eq "GET" "/api/v2/torrents/info"
                (Some {["hashes" := Some (Torrent.hash torrent)]}) None st) as Heq.
  cbv zeta in Heq. fold (info_request (self st) (Torrent.hash torrent)) in Heq.
  fold req in Heq.
  repeat split.
  - intros response Hremote Hcode Hbody.
    rewrite get_torrent_status_eq, Heq, Hremote.
    replace (status_code response =? 403) with false by lia.
    replace (status_code response >=? 400) with false by lia.
    unfold unparsable_or_empty in Hbody.
    destruct (json_result response) as [torrents|e].
    + apply negb_true_iff in Hbody. rewrite Hbody. by eexists.
    + rewrite Hbody. by eexists.
  - intros response Hremote Hcode.
    rewrite get_torrent_status_eq, Heq, Hremote.
    destruct (status_code response =? 403); [by eexists _, _|].
    replace (status_code response >=? 400) with true by lia.
    by eexists _, _.
  - intros cause Hremote Hcause.
    rewrite get_torrent_status_eq, Heq, Hremote, Hcause. by eexists.
Qed.

(** *** Dispatch *)

(** C4, amended. A dispatch raises the same exception class,
    [RuntimeError], in all three cases, and the cases differ in the message
    only: a fixed message for status 403; a message that carries the status
    code and the body for any other status of 400 or above; a message that
    carries the text of the cause, with the cause attached as context, for
    an exception of the transport.  The three messages are pairwise
    different whatever the code, the body and the cause are. *)
Theorem _request_failures method endpoint params data (st : State) :
  let req := mkRequest method (base_url (self st) +:+ endpoint) params data
               (sid_cookies (self st)) (timeout (self st)) in
  let forbidden := "Decypharr authentication required or invalid" in
  let api_error (response : Response) :=
    "Decypharr API error " +:+ pretty (status_code response)
    +:+ ": " +:+ text response in
  let failed (cause : exn) := "Decypharr request failed: " +:+ exn_str cause in
  (forall response,
      remote (trace st) req = Ok response ->
      status_code response = 403 ->
      (_request remote method endpoint params data st).1
      = Raise (mkExn RuntimeError forbidden None))
  ∧ (forall response,
        remote (trace st) req = Ok response ->
        400 <= status_code response -> status_code response <> 403 ->
        (_request remote method endpoint params data st).1
        = Raise (mkExn RuntimeError (api_error response) None))
  ∧ (forall cause,
        remote (trace st) req = Raise cause ->
        isinstance cause RequestException = true ->
        (_request remote method endpoint params data st).1
        = Raise (mkExn RuntimeError (failed cause) (Some cause)))
  ∧ (forall response cause,
        forbidden <> api_error response
        ∧ forbidden <> failed cause
        ∧ api_error response <> failed cause).
Proof.
  intros req forbidden api_error failed.
  rewrite _request_eq. cbv zeta. fold req.
  repeat split.
  - intros response -> ->. reflexivity.
  - intros response -> Hcode Hne.
    replace (status_code response =? 403) with false by lia.
    replace (status_code response >=? 400) with true by lia.
    reflexivity.
  - intros cause -> ->. reflexivity.
  - discriminate.
  - discriminate.
  - discriminate.
Qed.

(** *** Health check *)

(** C7. The health check never raises: it returns [True] exactly when the
    dispatch returns a response, whatever its body, and [False] with an
    error record logged when the dispatch raises, whatever the exception. *)
Theorem health_check_never_raises (st : State) :
  (exists b st', health_check remote st = (Ok b, st'))
  ∧ match _request remote "GET" "/api/v2/app/version" None None st with
    | (Ok response, st1) =>
        health_check remote st
        = (Ok true,
           logged st1 INFO
                  (Msg ("Decypharr health check OK, version: "
                        +:+ strip (text response))))
    | (Raise e, st1) =>
        health_check remote st
        = (Ok false,
           logged st1 ERROR
                  (Msg ("Decypharr health check failed: " +:+ exn_str e)))
    end.
Proof.
  unfold health_check. run.
  destruct (_request _ _ _ _ _ st) as [[response|e] st1]; simpl.
  - split; [by eexists _, _|reflexivity].
  - split; [by eexists _, _|reflexivity].
Qed.

(** *** Construction *)

Lemma _authenticate_eq st :
  let req := login_request (self st) in
  _authenticate remote st =
  match remote (trace st) req with
  | Ok response =>
      if status_code response =? 403 then
        (Raise (mkExn RuntimeError "Invalid Decypharr username or password" None),
         sent st req)
      else if negb (status_code response =? 200) then
        (Raise (mkExn RuntimeError
                  ("Authentication failed: " +:+ text response) None),
         sent st req)
      else
        match jar_getitem (cookies response) "SID" with
        | Ok sid =>
            (Ok tt,
             logged (set_cookie (sent st req) (Some sid)) INFO
                    (Msg "Successfully authenticated with Decypharr"))
        | Raise e =>
            if isinstance e KeyError then (Ok tt, sent st req)
            else (Raise e, sent st req)
        end
  | Raise e =>
      if isinstance e RequestException then
        (Raise (mkExn RuntimeError
                  ("Decypharr authentication failed: " +:+ exn_str e) (Some e)),
         logged (sent st req) ERROR
                (Msg ("Failed to authenticate with Decypharr: " +:+ exn_str e)))
      else (Raise e, sent st req)
  end.
Proof.
  intros req. unfold _authenticate. run.
  fold (login_request (self st)). fold req.
  destruct (remote (trace st) req) as [response|e]; simpl.
  - destruct (status_code response =? 403); simpl; [reflexivity|].
    destruct (status_code response =? 200); simpl; [|reflexivity].
    destruct (jar_getitem_cases (cookies response) "SID")
      as [(sid & Hget & _)|[Hget|Hget]].
    + by rewrite (jar_contains_value _ _ _ Hget), Hget.
    + by rewrite (jar_contains_key_error _ _ Hget), Hget.
    + by rewrite (jar_contains_conflict _ _ Hget), Hget.
  - destruct (isinstance e RequestException); reflexivity.
Qed.

Lemma _authenticate_trace st :
  trace (_authenticate remote st).2 = trace st ++ [login_request (self st)].
Proof.
  rewrite _authenticate_eq. cbv zeta.
  destruct (remote _ _) as [response|e].
  - destruct (status_code response =? 403); [reflexivity|].
    destruct (negb _); [reflexivity|].
    destruct (jar_getitem (cookies response) "SID") as [sid|e]; [reflexivity|].
    destruct (isinstance e KeyError); reflexivity.
  - destruct (isinstance e RequestException); reflexivity.
Qed.

Lemma __init___with_credentials cfg tr lg :
  truthy_str (DecypharrConfig.username cfg) = true ->
  truthy_str (DecypharrConfig.password cfg) = true ->
  __init__ remote cfg tr lg =
  match _authenticate remote (mkState (fresh_client cfg) tr lg) with
  | (Ok _, st1) =>
      (Ok (self st1),
       logged st1 INFO
              (Msg ("Decypharr client initialized: " +:+ base_url (self st1))))
  | (Raise e, st1) => (Raise e, st1)
  end.
Proof.
  intros Hu Hp. unfold __init__. rewrite Hu, Hp. simpl.
  fold (fresh_client cfg). unfold mbind, M_bind.
  destruct (_authenticate remote _) as [[[]|e] st1]; reflexivity.
Qed.

(** C5. With credentials configured, the constructor sends the login
    request once, whatever the service does, and nothing else; if the
    answer has status 403 it raises (a [RuntimeError] that names the
    credentials), so that no client object exists to operate on, and
    nothing more is logged. *)
Theorem construction_rejected_credentials
    (cfg : DecypharrConfig.t) (tr : list Request) (lg : list LogRecord) :
  truthy_str (DecypharrConfig.username cfg) = true ->
  truthy_str (DecypharrConfig.password cfg) = true ->
  trace (__init__ remote cfg tr lg).2 = tr ++ [login_request (fresh_client cfg)]
  ∧ (forall response,
        remote tr (login_request (fresh_client cfg)) = Ok response ->
        status_code response = 403 ->
        (__init__ remote cfg tr lg).1
        = Raise (mkExn RuntimeError "Invalid Decypharr username or password" None)
        ∧ logs (__init__ remote cfg tr lg).2 = lg).
Proof.
  intros Hu Hp. rewrite (__init___with_credentials _ _ _ Hu Hp).
  set (st0 := mkState (fresh_client cfg) tr lg).
  pose proof (_authenticate_trace st0) as Htrace.
  pose proof (_authenticate_eq st0) as Heq. cbv zeta in Heq.
  change (self st0) with (fresh_client cfg) in *.
  change (trace st0) with tr in *.
  split.
  - destruct (_authenticate remote st0) as [[[]|e] st1]; exact Htrace.
  - intros response Hremote Hcode.
    rewrite Hremote, Hcode in Heq. simpl in Heq. rewrite Heq. by split.
Qed.

(** *** A caller's sequence of operations *)

Lemma keeps_call (op : operation) (st : State) :
  self (call get_torrent_hash remote op st) = self st
  ∧ exists new,
      trace (call get_torrent_hash remote op st) = trace st ++ new
      ∧ Forall (fun r => req_cookies r = sid_cookies (self st)) new.
Proof.
  destruct op; simpl.
  - apply keeps_download_torrent.
  - apply keeps_remove_torrent.
  - apply keeps_pause_torrent.
  - apply keeps_resume_torrent.
  - apply keeps_get_torrent_status.
  - apply keeps_get_torrent_files.
  - apply keeps_health_check.
Qed.

Lemma keeps_calls (ops : list operation) (st : State) :
  self (calls get_torrent_hash remote ops st) = self st
  ∧ exists new,
      trace (calls get_torrent_hash remote ops st) = trace st ++ new
      ∧ Forall (fun r => req_cookies r = sid_cookies (self st)) new.
Proof.
  revert st. induction ops as [|op ops IH]; intros st; simpl.
  - split; [reflexivity|]. exists []. by rewrite app_nil_r.
  - destruct (keeps_call op st) as [Hself (n1 & Htr & Hall)].
    destruct (IH (call get_torrent_hash remote op st))
      as [Hself2 (n2 & Htr2 & Hall2)].
    unfold calls in *. split; [congruence|].
    exists (n1 ++ n2). split.
    + by rewrite Htr2, Htr, app_assoc.
    + apply Forall_app. split; [done|]. by rewrite <- Hself.
Qed.

(** C9. Each lifecycle operation (submit, cancel, pause, resume, status
    query, list-files, health-check), and so each sequence of them, leaves
    the client object as it was: base endpoint, session token, timeout,
    configuration and session are the same before and after the call. *)
Theorem lifecycle_keeps_connection_context (op : operation) (ops : list operation)
    (st : State) :
  let me := self st in
  let me' := self (call get_torrent_hash remote op st) in
  base_url me' = base_url me
  ∧ _cookie me' = _cookie me
  ∧ timeout me' = timeout me
  ∧ config me' = config me
  ∧ session me' = session me
  ∧ me' = me
  ∧ self (calls get_torrent_hash remote ops st) = me.
Proof.
  cbv zeta. destruct (keeps_call op st) as [-> _].
  repeat split. apply keeps_calls.
Qed.

(** C10. With credentials configured, a login answered with status 200 and
    no [SID] cookie lets the constructor finish: it returns a client whose
    session token is absent and logs only that the client is initialised.
    Every request that any later sequence of operations sends on that
    client goes out with no cookies. *)
Theorem login_without_session_cookie
    (cfg : DecypharrConfig.t) (tr : list Request) (lg : list LogRecord)
    (response : Response) :
  truthy_str (DecypharrConfig.username cfg) = true ->
  truthy_str (DecypharrConfig.password cfg) = true ->
  remote tr (login_request (fresh_client cfg)) = Ok response ->
  status_code response = 200 ->
  cookies response !! "SID" = None ->
  exists me st',
    __init__ remote cfg tr lg = (Ok me, st')
    ∧ self st' = me
    ∧ _cookie me = None
    ∧ logs st'
      = lg ++ [mkLog INFO (Msg ("Decypharr client initialized: " +:+ base_url me))]
    ∧ forall ops,
        Forall (fun r => req_cookies r = None)
               (drop (List.length (trace st'))
                     (trace (calls get_torrent_hash remote ops st'))).
Proof.
  intros Hu Hp Hremote Hcode Hsid.
  rewrite (__init___with_credentials _ _ _ Hu Hp).
  set (st0 := mkState (fresh_client cfg) tr lg).
  pose proof (_authenticate_eq st0) as Heq. cbv zeta in Heq.
  change (self st0) with (fresh_client cfg) in Heq.
  change (trace st0) with tr in Heq.
  rewrite Hremote, Hcode, (jar_lookup_None _ _ Hsid) in Heq.
  simpl in Heq. rewrite Heq.
  eexists _, _. split; [reflexivity|].
  repeat split.
  intros ops.
  match goal with |- context [calls _ _ ops ?s] => set (st' := s) end.
  destruct (keeps_calls ops st') as [_ (new & -> & Hall)].
  rewrite drop_app_length. exact Hall.
Qed.
End Properties.

(** ** The statements at concrete inputs *)

(** Every label of the table, the label "unknown" and a label outside the
    table, one by one. *)
Lemma resolve_state_total_witness :
  Forall (fun label =>
            resolve_state (JStr label) Sample.st0 = (Ok downloading, Sample.st0))
         ["allocating"; "downloading"; "metaDL"; "pausedDL"; "queuedDL";
          "stalledDL"; "checkingDL"; "forcedDL"; "moving"; "stoppedDL";
          "forcedMetaDL"]
  ∧ Forall (fun label =>
              resolve_state (JStr label) Sample.st0 = (Ok finished, Sample.st0))
           ["uploading"; "pausedUP"; "queuedUP"; "stalledUP"; "checkingUP";
            "forcedUP"; "stoppedUP"; "completed"]
  ∧ Forall (fun label =>
              resolve_state (JStr label) Sample.st0 = (Ok error, Sample.st0))
           ["missingFiles"; "error"; "checkingResumeData"]
  ∧ resolve_state (JStr "unknown") Sample.st0 = (Ok unknown, Sample.st0)
  ∧ (resolve_state (JStr "seeding") Sample.st0).1 = Ok unknown.
Proof.
  assert (Hin : forall (label : string) (labels : list string),
             bool_decide (label ∈ labels) = true -> label ∈ labels).
  { intros label labels H. by apply bool_decide_eq_true in H. }
  assert (Hout : forall (label : string) (labels : list string),
             bool_decide (label ∈ labels) = false -> label ∉ labels).
  { intros label labels H. by apply bool_decide_eq_false in H. }
  split; [|split; [|split; [|split]]].
  - repeat constructor;
      match goal with
      | |- resolve_state (JStr ?l) _ = _ =>
          destruct (resolve_state_total l Sample.st0)
            as (c & st' & Heq & _ & _ & _ & Hd & _);
          destruct (Hd (Hin _ _ eq_refl)) as [-> ->]; exact Heq
      end.
  - repeat constructor;
      match goal with
      | |- resolve_state (JStr ?l) _ = _ =>
          destruct (resolve_state_total l Sample.st0)
            as (c & st' & Heq & _ & _ & _ & _ & Hf & _);
          destruct (Hf (Hin _ _ eq_refl)) as [-> ->]; exact Heq
      end.
  - repeat constructor;
      match goal with
      | |- resolve_state (JStr ?l) _ = _ =>
          destruct (resolve_state_total l Sample.st0)
            as (c & st' & Heq & _ & _ & _ & _ & _ & He & _);
          destruct (He (Hin _ _ eq_refl)) as [-> ->]; exact Heq
      end.
  - destruct (resolve_state_total "unknown" Sample.st0)
      as (c & st' & Heq & _ & _ & _ & _ & _ & _ & Hu & _).
    destruct (Hu eq_refl) as [-> ->]. exact Heq.
  - destruct (resolve_state_total "seeding" Sample.st0)
      as (c & st' & Heq & _ & _ & _ & _ & _ & _ & _ & Ho).
    rewrite Heq. simpl. f_equal.
    apply Ho; apply Hout; reflexivity.
Defined.

(** A body of exactly "Ok." gives a record with the hash. *)
Lemma download_torrent_acknowledgment_witness :
  Sample.get_hash Sample.movie = Ok Sample.movie_hash
  ∧ Sample.acknowledging (trace Sample.st0)
      (add_request (self Sample.st0) Sample.movie) = Ok (Sample.plain 200 "Ok.")
  ∧ status_code (Sample.plain 200 "Ok.") < 400
  ∧ strip (text (Sample.plain 200 "Ok.")) = "Ok."
  ∧ exists t st',
      download_torrent Sample.get_hash Sample.acknowledging Sample.movie Sample.st0
      = (Ok t, st')
      ∧ Torrent.hash t = Sample.movie_hash.
Proof.
  assert (Hcode : status_code (Sample.plain 200 "Ok.") < 400) by (simpl; lia).
  do 4 (split; [first [reflexivity | exact Hcode]|]).
  destruct (download_torrent_acknowledgment Sample.get_hash Sample.acknowledging
              Sample.movie Sample.movie_hash Sample.st0 (Sample.plain 200 "Ok.")
              eq_refl eq_refl Hcode) as [Hok _].
  destruct (Hok eq_refl) as (t & st' & Heq & Hhash & _).
  exists t, st'. split; assumption.
Defined.

(** C2, as stated, fails: the body "Ok." followed by a newline is not the
    literal "Ok.", yet the submission returns a record. *)
Lemma exact_match_counterexample :
  text (Sample.plain 200 Sample.ok_newline) <> "Ok."
  ∧ Sample.acknowledging_newline (trace Sample.st0)
      (add_request (self Sample.st0) Sample.movie)
    = Ok (Sample.plain 200 Sample.ok_newline)
  ∧ (download_torrent Sample.get_hash Sample.acknowledging_newline
       Sample.movie Sample.st0).1
    = Ok (Torrent.mk downloading "Big Buck Bunny" 2 false Sample.movie_hash).
Proof.
  split; [discriminate|]. split; vm_compute; reflexivity.
Qed.

(** An empty array gives [unknown]. *)
Lemma get_torrent_status_degrades_witness :
  Sample.empty_result (trace Sample.st0)
    (info_request (self Sample.st0) (Torrent.hash Sample.torrent))
  = Ok (Sample.parsed 200 "[]" (JArr []))
  ∧ status_code (Sample.parsed 200 "[]" (JArr [])) < 400
  ∧ unparsable_or_empty (Sample.parsed 200 "[]" (JArr [])) = true
  ∧ exists st',
      get_torrent_status Sample.empty_result Sample.torrent Sample.st0
      = (Ok unknown, st').
Proof.
  assert (Hcode : status_code (Sample.parsed 200 "[]" (JArr [])) < 400)
    by (simpl; lia).
  do 3 (split; [first [reflexivity | exact Hcode]|]).
  destruct (get_torrent_status_degrades Sample.empty_result Sample.torrent Sample.st0)
    as [Hdeg _].
  destruct (Hdeg _ eq_refl Hcode eq_refl) as (st' & Heq & _).
  exists st'. exact Heq.
Defined.

(** C3, as stated, fails: a status query answered with status 500, or not
    answered at all, raises instead of returning [unknown]. *)
Lemma status_query_raises_counterexample :
  (get_torrent_status Sample.broken Sample.torrent Sample.st0).1
  = Raise (mkExn RuntimeError
             "Decypharr API error 500: Internal Server Error" None)
  ∧ (get_torrent_status Sample.down Sample.torrent Sample.st0).1
    = Raise (mkExn RuntimeError "Decypharr request failed: connection refused"
               (Some Sample.connection_refused))
  ∧ (get_torrent_status Sample.broken Sample.torrent Sample.st0).1 <> Ok unknown
  ∧ (get_torrent_status Sample.down Sample.torrent Sample.st0).1 <> Ok unknown.
Proof.
  repeat split; try (vm_compute; reflexivity); vm_compute; discriminate.
Qed.

(** The three failures of a dispatch on concrete services. *)
Lemma _request_failures_witness :
  status_code (Sample.plain 403 "Forbidden") = 403
  ∧ 400 <= status_code (Sample.plain 500 "Internal Server Error")
  ∧ isinstance Sample.connection_refused RequestException = true
  ∧ (_request Sample.forbidden "GET" "/api/v2/app/version" None None Sample.st0).1
    = Raise (mkExn RuntimeError
               "Decypharr authentication required or invalid" None)
  ∧ (_request Sample.broken "GET" "/api/v2/app/version" None None Sample.st0).1
    = Raise (mkExn RuntimeError
               "Decypharr API error 500: Internal Server Error" None)
  ∧ (_request Sample.down "GET" "/api/v2/app/version" None None Sample.st0).1
    = Raise (mkExn RuntimeError "Decypharr request failed: connection refused"
               (Some Sample.connection_refused)).
Proof.
  assert (Hcode : 400 <= status_code (Sample.plain 500 "Internal Server Error"))
    by (simpl; lia).
  assert (Hne : status_code (Sample.plain 500 "Internal Server Error") <> 403)
    by (simpl; lia).
  do 3 (split; [first [reflexivity | exact Hcode]|]).
  split; [|split].
  - destruct (_request_failures Sample.forbidden "GET" "/api/v2/app/version"
                None None Sample.st0) as (H403 & _).
    exact (H403 _ eq_refl eq_refl).
  - destruct (_request_failures Sample.broken "GET" "/api/v2/app/version"
                None None Sample.st0) as (_ & H500 & _).
    exact (H500 _ eq_refl Hcode Hne).
  - destruct (_request_failures Sample.down "GET" "/api/v2/app/version"
                None None Sample.st0) as (_ & _ & Hdown & _).
    exact (Hdown _ eq_refl eq_refl).
Defined.

(** C4, as stated, fails: the exceptions raised for status 403, for status
    500 and for a refused connection have one and the same class. *)
Lemma one_error_type_counterexample :
  exists e1 e2 e3,
    (_request Sample.forbidden "GET" "/api/v2/app/version" None None Sample.st0).1
    = Raise e1
    ∧ (_request Sample.broken "GET" "/api/v2/app/version" None None Sample.st0).1
      = Raise e2
    ∧ (_request Sample.down "GET" "/api/v2/app/version" None None Sample.st0).1
      = Raise e3
    ∧ exn_cls e1 = exn_cls e2
    ∧ exn_cls e2 = exn_cls e3.
Proof.
  eexists _, _, _. repeat split; vm_compute; reflexivity.
Qed.

(** A login answered with status 403. *)
Lemma construction_rejected_credentials_witness :
  truthy_str (DecypharrConfig.username Sample.cfg) = true
  ∧ truthy_str (DecypharrConfig.password Sample.cfg) = true
  ∧ Sample.forbidden [] (login_request (fresh_client Sample.cfg))
    = Ok (Sample.plain 403 "Forbidden")
  ∧ trace (__init__ Sample.forbidden Sample.cfg [] []).2
    = [login_request (fresh_client Sample.cfg)]
  ∧ (__init__ Sample.forbidden Sample.cfg [] []).1
    = Raise (mkExn RuntimeError "Invalid Decypharr username or password" None).
Proof.
  do 3 (split; [reflexivity|]).
  destruct (construction_rejected_credentials Sample.forbidden Sample.cfg [] []
              eq_refl eq_refl) as [Htrace Hraise].
  split; [exact Htrace|].
  exact (proj1 (Hraise _ eq_refl eq_refl)).
Defined.

(** The service acknowledges the submission and then goes away. *)
Lemma download_torrent_survives_status_failure_witness :
  Sample.get_hash Sample.movie = Ok Sample.movie_hash
  ∧ Sample.acknowledging_then_down (trace Sample.st0)
      (add_request (self Sample.st0) Sample.movie) = Ok (Sample.plain 200 "Ok.")
  ∧ status_code (Sample.plain 200 "Ok.") < 400
  ∧ strip (text (Sample.plain 200 "Ok.")) = "Ok."
  ∧ (get_torrent_status Sample.acknowledging_then_down Sample.torrent
       (after_acknowledgment Sample.st0 Sample.movie Sample.movie_hash)).1
    = Raise (mkExn RuntimeError "Decypharr request failed: connection refused"
               (Some Sample.connection_refused))
  ∧ (download_torrent Sample.get_hash Sample.acknowledging_then_down
       Sample.movie Sample.st0).1
    = Ok Sample.torrent.
Proof.
  assert (Hcode : status_code (Sample.plain 200 "Ok.") < 400) by (simpl; lia).
  do 4 (split; [first [reflexivity | exact Hcode]|]).
  destruct (get_torrent_status Sample.acknowledging_then_down Sample.torrent
              (after_acknowledgment Sample.st0 Sample.movie Sample.movie_hash))
    as [res st4] eqn:Hstatus.
  assert (Hres : res = Raise (mkExn RuntimeError
                                "Decypharr request failed: connection refused"
                                (Some Sample.connection_refused))).
  { change res with (res, st4).1. rewrite <- Hstatus. vm_compute. reflexivity. }
  subst res. split; [reflexivity|].
  destruct (download_torrent_survives_status_failure Sample.get_hash
              Sample.acknowledging_then_down Sample.movie Sample.movie_hash
              Sample.st0 st4 (Sample.plain 200 "Ok.") _
              eq_refl eq_refl Hcode eq_refl Hstatus) as [Heq _].
  rewrite Heq. reflexivity.
Defined.

(** The form of a concrete submission, under a configuration with a save
    path and no category name. *)
Lemma submission_form_witness :
  Sample.get_hash Sample.movie = Ok Sample.movie_hash
  ∧ exists req d,
      trace (download_torrent Sample.get_hash Sample.acknowledging
               Sample.movie Sample.st0).2 !! 0%nat = Some req
      ∧ req_data req = Some d
      ∧ d !! "urls" = Some (Some (IndexerQueryResult.download_url Sample.movie))
      ∧ d !! "category" = Some (Some "movies")
      ∧ d !! "savepath" = Some (Some "/mnt/media").
Proof.
  split; [reflexivity|].
  destruct (submission_form Sample.get_hash Sample.acknowledging Sample.movie
              Sample.movie_hash Sample.st0 eq_refl)
    as (req & d & Hreq & _ & _ & Hdata & Hurls & _ & Hdflt & Hpath & _).
  exists req, d. repeat split; try assumption.
  - apply Hdflt. left. reflexivity.
  - apply Hpath; [reflexivity|discriminate].
Defined.

(** A login answered with status 200 and no cookie. *)
Lemma login_without_session_cookie_witness :
  truthy_str (DecypharrConfig.username Sample.cfg) = true
  ∧ truthy_str (DecypharrConfig.password Sample.cfg) = true
  ∧ Sample.login_without_cookie [] (login_request (fresh_client Sample.cfg))
    = Ok (Sample.plain 200 "Ok.")
  ∧ status_code (Sample.plain 200 "Ok.") = 200
  ∧ cookies (Sample.plain 200 "Ok.") !! "SID" = None
  ∧ exists me st',
      __init__ Sample.login_without_cookie Sample.cfg [] [] = (Ok me, st')
      ∧ _cookie me = None
      ∧ Forall (fun r => req_cookies r = None)
          (drop (List.length (trace st'))
             (trace (calls Sample.get_hash Sample.login_without_cookie
                       [HealthCheck; StatusQuery Sample.torrent] st'))).
Proof.
  do 5 (split; [reflexivity|]).
  destruct (login_without_session_cookie Sample.get_hash
              Sample.login_without_cookie Sample.cfg [] []
              (Sample.plain 200 "Ok.") eq_refl eq_refl eq_refl eq_refl eq_refl)
    as (me & st' & Heq & _ & Hcookie & _ & Hall).
  exists me, st'. repeat split; [exact Heq|exact Hcookie|apply Hall].
Defined.

(** * Further properties *)

(** ** Strings *)

Lemma append_cons (c : ascii) (s t : string) :
  String c s +:+ t = String c (s +:+ t).
Proof. reflexivity. Qed.

Lemma rstrip_chars_last (p : ascii -> bool) (s : string) (c : ascii) :
  last_char (rstrip_chars p s) = Some c -> p c = false.
Proof.
  induction s as [|c0 r IH]; simpl; [discriminate|].
  destruct (String.eqb_spec (rstrip_chars p r) "") as [He|Hne].
  - rewrite He in *. rewrite andb_true_r.
    destruct (p c0) eqn:Hc0; simpl; [discriminate|].
    intros [= <-]. exact Hc0.
  - rewrite andb_false_r. simpl.
    destruct (rstrip_chars p r) as [|c1 r1]; [contradiction|]. exact IH.
Qed.

Lemma rstrip_slash_split (s : string) :
  exists n, s = rstrip_slash s +:+ slashes n.
Proof.
  unfold rstrip_slash. induction s as [|c0 r [n IH]]; cbn [rstrip_chars].
  - exists 0%nat. reflexivity.
  - destruct (String.eqb_spec (rstrip_chars (Ascii.eqb "/") r) "") as [He|Hne].
    + rewrite andb_true_r. destruct (Ascii.eqb "/" c0) eqn:Hc0.
      * apply Ascii.eqb_eq in Hc0 as <-.
        exists (S n). rewrite He in IH. rewrite IH. reflexivity.
      * exists n. rewrite append_cons. by rewrite <- IH.
    + rewrite andb_false_r. exists n. rewrite append_cons. by rewrite <- IH.
Qed.

Lemma append_nil_r (s : string) : s +:+ EmptyString = s.
Proof. induction s as [|c r IH]; [reflexivity|]. by rewrite append_cons, IH. Qed.

Lemma append_assoc (s t u : string) : (s +:+ t) +:+ u = s +:+ (t +:+ u).
Proof. induction s as [|c r IH]; [reflexivity|]. by rewrite !append_cons, IH. Qed.

Lemma lstrip_chars_split (p : ascii -> bool) (s : string) :
  exists pre, s = pre +:+ lstrip_chars p s ∧ all_chars p pre = true.
Proof.
  induction s as [|c r (pre & IH & Hpre)]; cbn [lstrip_chars].
  - by exists EmptyString.
  - destruct (p c) eqn:Hc.
    + exists (String c pre). rewrite append_cons, <- IH. split; [reflexivity|].
      cbn [all_chars]. by rewrite Hc, Hpre.
    + by exists EmptyString.
Qed.

Lemma lstrip_chars_app (p : ascii -> bool) (pre s : string) :
  all_chars p pre = true -> lstrip_chars p (pre +:+ s) = lstrip_chars p s.
Proof.
  induction pre as [|c r IH]; [reflexivity|].
  cbn [all_chars]. intros [Hc Hr]%andb_true_iff.
  rewrite append_cons. cbn [lstrip_chars]. rewrite Hc. by apply IH.
Qed.

Lemma rstrip_chars_split (p : ascii -> bool) (s : string) :
  exists post, s = rstrip_chars p s +:+ post ∧ all_chars p post = true.
Proof.
  induction s as [|c r (post & IH & Hpost)]; cbn [rstrip_chars].
  - by exists EmptyString.
  - destruct (String.eqb_spec (rstrip_chars p r) "") as [He|Hne].
    + rewrite andb_true_r. destruct (p c) eqn:Hc.
      * exists (String c r). split; [reflexivity|].
        cbn [all_chars]. rewrite Hc. rewrite He in IH. by rewrite IH.
      * exists post. split; [|exact Hpost]. rewrite append_cons. by rewrite <- IH.
    + rewrite andb_false_r. exists post. split; [|exact Hpost].
      rewrite append_cons. by rewrite <- IH.
Qed.

Lemma rstrip_chars_all (p : ascii -> bool) (s : string) :
  all_chars p s = true -> rstrip_chars p s = EmptyString.
Proof.
  induction s as [|c r IH]; [reflexivity|].
  cbn [all_chars rstrip_chars]. intros [Hc Hr]%andb_true_iff.
  by rewrite (IH Hr), Hc.
Qed.

Lemma rstrip_chars_keep (p : ascii -> bool) (c : ascii) (s : string) :
  p c = false -> rstrip_chars p (String c s) = String c (rstrip_chars p s).
Proof. intros Hc. cbn [rstrip_chars]. by rewrite Hc. Qed.

(** The bodies that strip to the acknowledgment. *)
Lemma strip_acknowledgment (body : string) :
  strip body = "Ok."
  <-> exists pre post,
        body = pre +:+ "Ok." +:+ post
        ∧ all_chars is_space pre = true
        ∧ all_chars is_space post = true.
Proof.
  unfold strip. split.
  - intros Hstrip.
    destruct (lstrip_chars_split is_space body) as (pre & Hbody & Hpre).
    destruct (rstrip_chars_split is_space (lstrip_chars is_space body))
      as (post & Hmid & Hpost).
    exists pre, post. rewrite Hstrip in Hmid. by rewrite <- Hmid.
  - intros (pre & post & -> & Hpre & Hpost).
    rewrite (lstrip_chars_app _ _ _ Hpre).
    change ("Ok." +:+ post) with (String "O" (String "k" (String "." post))).
    cbn [lstrip_chars]. change (is_space "O") with false. cbv iota.
    rewrite !rstrip_chars_keep by reflexivity.
    by rewrite (rstrip_chars_all _ _ Hpost).
Qed.

(** ** Combinators stay confined *)

Lemma confined_pure {A} (P : DecypharrDownloadClient -> Request -> Prop)
    (m : M A) :
  (forall st, exists extra,
      (m st).2 = mkState (self st) (trace st) (logs st ++ extra)) ->
  confined P m.
Proof.
  intros Hm st. destruct (Hm st) as [extra ->]. simpl.
  split; [reflexivity|]. split.
  - exists []. split; [by rewrite app_nil_r|constructor].
  - by exists extra.
Qed.

Section Confined.
Context {A B : Type} (P : DecypharrDownloadClient -> Request -> Prop).

Lemma confined_ret (a : A) : confined P (mret a).
Proof.
  apply confined_pure. intros [me tr lg]. exists []. simpl. by rewrite app_nil_r.
Qed.

Lemma confined_raise (e : exn) : confined P (raise (A:=A) e).
Proof.
  apply confined_pure. intros [me tr lg]. exists []. simpl. by rewrite app_nil_r.
Qed.

Lemma confined_lift (r : Result A) : confined P (lift r).
Proof.
  apply confined_pure. intros [me tr lg]. exists []. simpl. by rewrite app_nil_r.
Qed.

Lemma confined_seq (st st1 st2 : State) :
  (self st1 = self st
   ∧ (exists new, trace st1 = trace st ++ new ∧ Forall (P (self st)) new)
   ∧ (exists extra, logs st1 = logs st ++ extra)) ->
  (self st2 = self st1
   ∧ (exists new, trace st2 = trace st1 ++ new ∧ Forall (P (self st1)) new)
   ∧ (exists extra, logs st2 = logs st1 ++ extra)) ->
  self st2 = self st
  ∧ (exists new, trace st2 = trace st ++ new ∧ Forall (P (self st)) new)
  ∧ (exists extra, logs st2 = logs st ++ extra).
Proof.
  intros (Hs1 & (n1 & Ht1 & Hp1) & (x1 & Hl1)) (Hs2 & (n2 & Ht2 & Hp2) & (x2 & Hl2)).
  split; [congruence|]. split.
  - exists (n1 ++ n2). split; [by rewrite Ht2, Ht1, app_assoc|].
    apply Forall_app. split; [done|]. by rewrite <- Hs1.
  - exists (x1 ++ x2). by rewrite Hl2, Hl1, app_assoc.
Qed.

Lemma confined_bind (m : M A) (k : A -> M B) :
  confined P m -> (forall a, confined P (k a)) -> confined P (m ≫= k).
Proof.
  intros Hm Hk st. unfold mbind, M_bind.
  pose proof (Hm st) as H1.
  destruct (m st) as [[a|e] st1]; simpl in *; [|exact H1].
  exact (confined_seq _ _ _ H1 (Hk a st1)).
Qed.

Lemma confined_try (body : M A) (base : exn_class) (handler : exn -> M A) :
  confined P body -> (forall e, confined P (handler e)) ->
  confined P (try_except body base handler).
Proof.
  intros Hm Hk st. unfold try_except.
  pose proof (Hm st) as H1.
  destruct (body st) as [[a|e] st1]; simpl in *; [exact H1|].
  destruct (isinstance e base); [|exact H1].
  exact (confined_seq _ _ _ H1 (Hk e st1)).
Qed.

End Confined.

Lemma confined_log P (l : Level) (m : log_message) : confined P (log l m).
Proof. apply confined_pure. intros st. by exists [mkLog l m]. Qed.

Lemma confined_get_self P : confined P get_self.
Proof.
  apply confined_pure. intros [me tr lg]. exists []. simpl. by rewrite app_nil_r.
Qed.

Lemma api_request_built (me : DecypharrDownloadClient) method endpoint params data :
  (method, endpoint) ∈ api_surface ->
  api_request me (mkRequest method (base_url me +:+ endpoint) params data
                    (sid_cookies me) (timeout me)).
Proof. intros Hin. repeat split. by exists method, endpoint. Qed.

Create HintDb confined.
#[local] Hint Resolve confined_log confined_get_self : confined.
#[local] Hint Resolve confined_ret confined_raise confined_lift : confined.

Ltac confined_step :=
  match goal with
  | |- confined _ (mbind _ _) => apply confined_bind; [|intros ?]
  | |- confined _ (try_except _ _ _) => apply confined_try; [|intros ?]
  | |- confined _ (if ?b then _ else _) => destruct b
  | |- confined _ (match ?x with _ => _ end) => destruct x
  | |- confined _ _ => solve [auto with confined]
  end.

Ltac in_surface := apply (bool_decide_unpack _); vm_compute; exact I.

Section Surface.
Context {Quality : Type}.
Variable get_torrent_hash : IndexerQueryResult.t Quality -> Result string.
Variable remote : list Request -> Request -> Result Response.

Lemma confined__request P method endpoint params data :
  (forall me, P me (mkRequest method (base_url me +:+ endpoint) params data
                      (sid_cookies me) (timeout me))) ->
  confined P (_request remote method endpoint params data).
Proof.
  intros HP st. rewrite _request_eq. cbv zeta.
  match goal with |- context [remote _ ?r] => set (req := r) end.
  assert (Hone : forall extra,
            let x := mkState (self st) (trace st ++ [req]) (logs st ++ extra) in
            self x = self st
            ∧ (exists new, trace x = trace st ++ new ∧ Forall (P (self st)) new)
            ∧ (exists extra, logs x = logs st ++ extra)).
  { intros extra. simpl. split; [done|]. split.
    - exists [req]. split; [done|]. apply Forall_singleton. apply HP.
    - by exists extra. }
  assert (Hsent : sent st req
                  = mkState (self st) (trace st ++ [req]) (logs st ++ [])).
  { unfold sent. by rewrite app_nil_r. }
  destruct (remote (trace st) req) as [response|e].
  - destruct (status_code response =? 403); [rewrite Hsent; apply Hone|].
    destruct (status_code response >=? 400); rewrite Hsent; apply Hone.
  - destruct (isinstance e RequestException); [apply Hone|].
    rewrite Hsent; apply Hone.
Qed.

Lemma surface__request method endpoint params data :
  (method, endpoint) ∈ api_surface ->
  confined api_request (_request remote method endpoint params data).
Proof.
  intros Hin. apply confined__request. intros me. by apply api_request_built.
Qed.

Lemma surface_resolve_state state : confined api_request (resolve_state state).
Proof. unfold resolve_state. repeat confined_step. Qed.

#[local] Hint Resolve surface_resolve_state : confined.

Lemma surface_get_torrent_status (torrent : Torrent.t Quality) :
  confined api_request (get_torrent_status remote torrent).
Proof.
  unfold get_torrent_status. repeat confined_step.
  apply surface__request. in_surface.
Qed.

#[local] Hint Resolve surface_get_torrent_status : confined.

Lemma surface_download_torrent (r : IndexerQueryResult.t Quality) :
  confined api_request (download_torrent get_torrent_hash remote r).
Proof.
  unfold download_torrent. repeat confined_step.
  apply surface__request. in_surface.
Qed.

Lemma surface_remove_torrent (torrent : Torrent.t Quality) delete_data :
  confined api_request (remove_torrent remote torrent delete_data).
Proof.
  unfold remove_torrent. repeat confined_step.
  apply surface__request. in_surface.
Qed.

Lemma surface_pause_torrent (torrent : Torrent.t Quality) :
  confined api_request (pause_torrent remote torrent).
Proof.
  unfold pause_torrent. repeat confined_step.
  apply surface__request. in_surface.
Qed.

Lemma surface_resume_torrent (torrent : Torrent.t Quality) :
  confined api_request (resume_torrent remote torrent).
Proof.
  unfold resume_torrent. repeat confined_step.
  apply surface__request. in_surface.
Qed.

Lemma surface_get_torrent_files (torrent : Torrent.t Quality) :
  confined api_request (get_torrent_files remote torrent).
Proof.
  unfold get_torrent_files. repeat confined_step.
  apply surface__request. in_surface.
Qed.

Lemma surface_health_check : confined api_request (health_check remote).
Proof.
  unfold health_check. repeat confined_step.
  apply surface__request. in_surface.
Qed.

Lemma surface_call (op : operation) (st : State) :
  self (call get_torrent_hash remote op st) = self st
  ∧ (exists new,
        trace (call get_torrent_hash remote op st) = trace st ++ new
        ∧ Forall (api_request (self st)) new)
  ∧ (exists extra, logs (call get_torrent_hash remote op st) = logs st ++ extra).
Proof.
  destruct op; simpl.
  - apply surface_download_torrent.
  - apply surface_remove_torrent.
  - apply surface_pause_torrent.
  - apply surface_resume_torrent.
  - apply surface_get_torrent_status.
  - apply surface_get_torrent_files.
  - apply surface_health_check.
Qed.

Lemma surface_calls (ops : list operation) (st : State) :
  self (calls get_torrent_hash remote ops st) = self st
  ∧ (exists new,
        trace (calls get_torrent_hash remote ops st) = trace st ++ new
        ∧ Forall (api_request (self st)) new)
  ∧ (exists extra, logs (calls get_torrent_hash remote ops st) = logs st ++ extra).
Proof.
  revert st. induction ops as [|op ops IH]; intros st.
  - simpl. split; [reflexivity|]. split.
    + exists []. split; [by rewrite app_nil_r|constructor].
    + exists []. by rewrite app_nil_r.
  - change (calls get_torrent_hash remote (op :: ops) st)
      with (calls get_torrent_hash remote ops (call get_torrent_hash remote op st)).
    exact (confined_seq _ _ _ _ (surface_call op st) (IH _)).
Qed.

End Surface.

(** ** Construction, continued *)

Section Further.
Context {Quality : Type}.
Variable get_torrent_hash : IndexerQueryResult.t Quality -> Result string.
Variable remote : list Request -> Request -> Result Response.

(** X1. With credentials configured, a login answered with a status other
    than 200 and 403 makes the constructor raise a [RuntimeError] that
    quotes the body; one request is sent, nothing is logged and no client
    is returned. *)
Theorem construction_login_other_status
    (cfg : DecypharrConfig.t) (tr : list Request) (lg : list LogRecord)
    (response : Response) :
  truthy_str (DecypharrConfig.username cfg) = true ->
  truthy_str (DecypharrConfig.password cfg) = true ->
  remote tr (login_request (fresh_client cfg)) = Ok response ->
  status_code response <> 403 ->
  status_code response <> 200 ->
  __init__ remote cfg tr lg
  = (Raise (mkExn RuntimeError ("Authentication failed: " +:+ text response) None),
     mkState (fresh_client cfg) (tr ++ [login_request (fresh_client cfg)]) lg).
Proof.
  intros Hu Hp Hremote H403 H200.
  rewrite (__init___with_credentials _ _ _ _ Hu Hp), _authenticate_eq.
  cbv zeta. simpl self. simpl trace. rewrite Hremote.
  replace (status_code response =? 403) with false by lia.
  replace (status_code response =? 200) with false by lia.
  reflexivity.
Qed.

(** X2. With credentials configured, a transport failure during the login
    is logged as an error and re-raised as a [RuntimeError] that quotes the
    cause and carries it as context. *)
Theorem construction_login_unreachable
    (cfg : DecypharrConfig.t) (tr : list Request) (lg : list LogRecord)
    (cause : exn) :
  truthy_str (DecypharrConfig.username cfg) = true ->
  truthy_str (DecypharrConfig.password cfg) = true ->
  remote tr (login_request (fresh_client cfg)) = Raise cause ->
  isinstance cause RequestException = true ->
  __init__ remote cfg tr lg
  = (Raise (mkExn RuntimeError
              ("Decypharr authentication failed: " +:+ exn_str cause)
              (Some cause)),
     mkState (fresh_client cfg) (tr ++ [login_request (fresh_client cfg)])
       (lg ++ [mkLog ERROR
                 (Msg ("Failed to authenticate with Decypharr: "
                       +:+ exn_str cause))])).
Proof.
  intros Hu Hp Hremote Hcause.
  rewrite (__init___with_credentials _ _ _ _ Hu Hp), _authenticate_eq.
  cbv zeta. simpl self. simpl trace. rewrite Hremote, Hcause. reflexivity.
Qed.

(** X3. With credentials configured, a login answered with status 200
    whose cookie jar gives a value for [SID] (the jar returns only
    non-empty values) yields a client that holds that value, logs the
    authentication and the initialisation, and every request of any later
    sequence of operations carries exactly the cookie [SID] with that
    value. *)
Theorem login_session_cookie_attached
    (cfg : DecypharrConfig.t) (tr : list Request) (lg : list LogRecord)
    (response : Response) (sid : string) :
  truthy_str (DecypharrConfig.username cfg) = true ->
  truthy_str (DecypharrConfig.password cfg) = true ->
  remote tr (login_request (fresh_client cfg)) = Ok response ->
  status_code response = 200 ->
  jar_getitem (cookies response) "SID" = Ok sid ->
  exists me st',
    __init__ remote cfg tr lg = (Ok me, st')
    ∧ self st' = me
    ∧ _cookie me = Some sid
    ∧ sid <> ""
    ∧ trace st' = tr ++ [login_request (fresh_client cfg)]
    ∧ logs st'
      = lg ++ [mkLog INFO (Msg "Successfully authenticated with Decypharr");
               mkLog INFO (Msg ("Decypharr client initialized: "
                                +:+ base_url me))]
    ∧ forall ops,
        Forall (fun r => req_cookies r = Some {["SID" := sid]})
               (drop (List.length (trace st'))
                     (trace (calls get_torrent_hash remote ops st'))).
Proof.
  intros Hu Hp Hremote Hcode Hsid.
  pose proof (jar_getitem_nonempty _ _ _ Hsid) as Hne.
  rewrite (__init___with_credentials _ _ _ _ Hu Hp), _authenticate_eq.
  cbv zeta. simpl self. simpl trace. rewrite Hremote, Hcode, Hsid. simpl.
  eexists _, _. split; [reflexivity|]. simpl.
  do 4 (split; [done|]). split; [by rewrite <- app_assoc|].
  intros ops.
  match goal with |- context [calls _ _ ops ?s] => set (st' := s) end.
  destruct (keeps_calls get_torrent_hash remote ops st') as [_ (new & -> & Hall)].
  rewrite drop_app_length.
  eapply Forall_impl; [exact Hall|]. intros r ->.
  unfold sid_cookies. simpl. apply String.eqb_neq in Hne. by rewrite Hne.
Qed.


(** X24. With credentials configured, a login answered with status 200
    whose jar holds two cookies named [SID], the first of them with a
    value, makes the constructor fail: reading the cookie raises the jar's
    [CookieConflictError], which is not caught, so no client is returned
    and nothing is logged. *)
Theorem login_conflicting_session_cookies
    (cfg : DecypharrConfig.t) (tr : list Request) (lg : list LogRecord)
    (response : Response) (before middle after : list Cookie)
    (first second : Cookie) (v : string) :
  truthy_str (DecypharrConfig.username cfg) = true ->
  truthy_str (DecypharrConfig.password cfg) = true ->
  remote tr (login_request (fresh_client cfg)) = Ok response ->
  status_code response = 200 ->
  cookies response = mkJar (before ++ first :: middle ++ second :: after) ->
  cookie_name first = "SID" ->
  cookie_value first = Some v ->
  cookie_name second = "SID" ->
  __init__ remote cfg tr lg
  = (Raise (mkExn CookieConflictError
              "There are multiple cookies with name, 'SID'" None),
     mkState (fresh_client cfg) (tr ++ [login_request (fresh_client cfg)]) lg).
Proof.
  intros Hu Hp Hremote Hcode Hjar Hfirst Hvalue Hsecond.
  pose proof (jar_getitem_conflict before middle after _ _ _ _
                Hfirst Hvalue Hsecond) as Hget.
  rewrite <- Hjar in Hget.
  rewrite (__init___with_credentials _ _ _ _ Hu Hp), _authenticate_eq.
  cbv zeta. simpl self. simpl trace. by rewrite Hremote, Hcode, Hget.
Qed.

(** X4. The constructor sends a request exactly when both the user name
    and the password are configured and non-empty.  When one of them is
    missing or empty it returns the client without a session token and
    logs only that the client is initialised. *)
Theorem construction_without_credentials
    (cfg : DecypharrConfig.t) (tr : list Request) (lg : list LogRecord) :
  (truthy_str (DecypharrConfig.username cfg)
   && truthy_str (DecypharrConfig.password cfg) = false
   <-> trace (__init__ remote cfg tr lg).2 = tr)
  ∧ (truthy_str (DecypharrConfig.username cfg)
     && truthy_str (DecypharrConfig.password cfg) = false ->
     __init__ remote cfg tr lg
     = (Ok (fresh_client cfg),
        mkState (fresh_client cfg) tr
          (lg ++ [mkLog INFO
                    (Msg ("Decypharr client initialized: "
                          +:+ rstrip_slash (DecypharrConfig.base_url cfg)))]))).
Proof.
  assert (Hnone : truthy_str (DecypharrConfig.username cfg)
                  && truthy_str (DecypharrConfig.password cfg) = false ->
                  __init__ remote cfg tr lg
                  = (Ok (fresh_client cfg),
                     mkState (fresh_client cfg) tr
                       (lg ++ [mkLog INFO
                                 (Msg ("Decypharr client initialized: "
                                       +:+ rstrip_slash
                                             (DecypharrConfig.base_url cfg)))]))).
  { intros Hcred. unfold __init__. rewrite Hcred. reflexivity. }
  split; [|exact Hnone]. split.
  - intros Hcred. by rewrite (Hnone Hcred).
  - intros Htrace.
    destruct (truthy_str (DecypharrConfig.username cfg)
              && truthy_str (DecypharrConfig.password cfg)) eqn:Hcred;
      [|reflexivity].
    apply andb_true_iff in Hcred as [Hu Hp]. exfalso.
    rewrite (__init___with_credentials _ _ _ _ Hu Hp) in Htrace.
    pose proof (_authenticate_trace remote (mkState (fresh_client cfg) tr lg))
      as Hsent.
    destruct (_authenticate remote _) as [[[]|e] st1]; simpl in Htrace, Hsent;
      rewrite Hsent in Htrace; apply (f_equal List.length) in Htrace;
      rewrite length_app in Htrace; simpl in Htrace; lia.
Qed.

Lemma __init___client cfg tr lg me st' :
  __init__ remote cfg tr lg = (Ok me, st') ->
  self st' = me
  ∧ exists c, me = mkClient cfg (rstrip_slash (DecypharrConfig.base_url cfg))
                     30 (mkSession 30) c.
Proof.
  destruct (truthy_str (DecypharrConfig.username cfg)
            && truthy_str (DecypharrConfig.password cfg)) eqn:Hcred.
  - apply andb_true_iff in Hcred as [Hu Hp].
    rewrite (__init___with_credentials _ _ _ _ Hu Hp), _authenticate_eq.
    cbv zeta. simpl self. simpl trace.
    destruct (remote tr _) as [response|e].
    + destruct (status_code response =? 403); [discriminate|].
      destruct (negb _); [discriminate|].
      destruct (jar_getitem (cookies response) "SID") as [sid|e'];
        [|destruct (isinstance e' KeyError); [|discriminate]];
        intros [= <- <-]; split; try reflexivity; by eexists.
    + destruct (isinstance e RequestException); discriminate.
  - unfold __init__. rewrite Hcred.
    intros [= <- <-]. split; [reflexivity|]. by eexists.
Qed.

(** X5. Whenever the constructor returns a client, the client holds the
    configuration it was given and the timeout 30, and its base URL is the
    configured one without its trailing slashes: it does not end in a
    slash, and the configured URL is the base URL followed by slashes
    only. *)
Theorem constructed_client_base_url
    (cfg : DecypharrConfig.t) (tr : list Request) (lg : list LogRecord)
    (me : DecypharrDownloadClient) (st' : State) :
  __init__ remote cfg tr lg = (Ok me, st') ->
  config me = cfg
  ∧ timeout me = 30
  ∧ last_char (base_url me) <> Some "/"%char
  ∧ exists n, DecypharrConfig.base_url cfg = base_url me +:+ slashes n.
Proof.
  intros Hinit. destruct (__init___client _ _ _ _ _ Hinit) as [_ [c ->]].
  simpl. repeat split.
  - intros Hlast. apply rstrip_chars_last in Hlast. discriminate.
  - apply rstrip_slash_split.
Qed.

(** ** Dispatch, continued *)

Lemma _request_ok method endpoint params data st response :
  let req := mkRequest method (base_url (self st) +:+ endpoint) params data
               (sid_cookies (self st)) (timeout (self st)) in
  remote (trace st) req = Ok response ->
  status_code response < 400 ->
  _request remote method endpoint params data st = (Ok response, sent st req).
Proof.
  intros req Hremote Hcode. rewrite _request_eq. cbv zeta. fold req.
  rewrite Hremote.
  replace (status_code response =? 403) with false by lia.
  replace (status_code response >=? 400) with false by lia.
  reflexivity.
Qed.

Lemma _request_ok_inv method endpoint params data st response st1 :
  let req := mkRequest method (base_url (self st) +:+ endpoint) params data
               (sid_cookies (self st)) (timeout (self st)) in
  _request remote method endpoint params data st = (Ok response, st1) ->
  remote (trace st) req = Ok response
  ∧ status_code response < 400
  ∧ st1 = sent st req.
Proof.
  intros req. rewrite _request_eq. cbv zeta. fold req.
  destruct (remote (trace st) req) as [response'|e].
  - destruct (status_code response' =? 403) eqn:H403; [discriminate|].
    destruct (status_code response' >=? 400) eqn:H400; [discriminate|].
    intros [= <- <-]. repeat split. lia.
  - destruct (isinstance e RequestException); discriminate.
Qed.

Lemma _request_raise_inv method endpoint params data st e st1 :
  let req := mkRequest method (base_url (self st) +:+ endpoint) params data
               (sid_cookies (self st)) (timeout (self st)) in
  _request remote method endpoint params data st = (Raise e, st1) ->
  trace st1 = trace st ++ [req]
  ∧ ~ (exists response,
          remote (trace st) req = Ok response ∧ status_code response < 400).
Proof.
  intros req. rewrite _request_eq. cbv zeta. fold req.
  destruct (remote (trace st) req) as [response'|e'].
  - destruct (status_code response' =? 403) eqn:H403.
    + intros [= <- <-]. split; [reflexivity|].
      intros (response & [= <-] & Hlt). lia.
    + destruct (status_code response' >=? 400) eqn:H400; [|discriminate].
      intros [= <- <-]. split; [reflexivity|].
      intros (response & [= <-] & Hlt). lia.
  - destruct (isinstance e' RequestException); intros [= <- <-];
      (split; [reflexivity|]); intros (response & Habs & _); discriminate.
Qed.

Lemma _request_sends_one method endpoint params data st :
  let req := mkRequest method (base_url (self st) +:+ endpoint) params data
               (sid_cookies (self st)) (timeout (self st)) in
  trace (_request remote method endpoint params data st).2 = trace st ++ [req]
  ∧ self (_request remote method endpoint params data st).2 = self st.
Proof.
  intros req.
  destruct (_request remote method endpoint params data st) as [[response|e] st1]
    eqn:Heq; simpl.
  - destruct (_request_ok_inv _ _ _ _ _ _ _ Heq) as (_ & _ & ->). by split.
  - destruct (_request_raise_inv _ _ _ _ _ _ _ Heq) as [Htr _].
    split; [exact Htr|].
    destruct (keeps__request remote method endpoint params data st) as [Hself _].
    by rewrite Heq in Hself.
Qed.

(** X6. A dispatch hands exactly one request to the session, whatever the
    outcome (no retry): the request has the given method, parameters and
    form, the URL is the base URL followed by the endpoint, the timeout is
    the client's, and the client object is left as it was. *)
Theorem _request_single_attempt method endpoint params data (st : State) :
  let req := mkRequest method (base_url (self st) +:+ endpoint) params data
               (sid_cookies (self st)) (timeout (self st)) in
  trace (_request remote method endpoint params data st).2 = trace st ++ [req]
  ∧ self (_request remote method endpoint params data st).2 = self st.
Proof.
  intros req. rewrite _request_eq. cbv zeta. fold req.
  destruct (remote (trace st) req) as [response|e].
  - destruct (status_code response =? 403); [by split|].
    destruct (status_code response >=? 400); by split.
  - destruct (isinstance e RequestException); by split.
Qed.

(** X7. A dispatch returns a response exactly when the service answered
    with a status below 400 (so 1xx, 2xx and 3xx all count as success); the
    response is the service's own, and nothing is logged. *)
Theorem _request_success_iff method endpoint params data (st : State)
    (response : Response) :
  let req := mkRequest method (base_url (self st) +:+ endpoint) params data
               (sid_cookies (self st)) (timeout (self st)) in
  ((_request remote method endpoint params data st).1 = Ok response
   <-> remote (trace st) req = Ok response ∧ status_code response < 400)
  ∧ ((_request remote method endpoint params data st).1 = Ok response ->
     logs (_request remote method endpoint params data st).2 = logs st).
Proof.
  intros req.
  destruct (_request remote method endpoint params data st) as [res st1] eqn:Heq.
  simpl. split; [split|].
  - intros ->. apply _request_ok_inv in Heq as (H1 & H2 & _). by split.
  - intros [H1 H2]. rewrite (_request_ok _ _ _ _ _ _ H1 H2) in Heq.
    by inversion Heq.
  - intros ->. apply _request_ok_inv in Heq as (_ & _ & ->). reflexivity.
Qed.

(** X8. An exception of the session that is not a [RequestException]
    passes through a dispatch as it is: it is neither wrapped nor logged. *)
Theorem _request_foreign_exception method endpoint params data (st : State)
    (e : exn) :
  let req := mkRequest method (base_url (self st) +:+ endpoint) params data
               (sid_cookies (self st)) (timeout (self st)) in
  remote (trace st) req = Raise e ->
  isinstance e RequestException = false ->
  _request remote method endpoint params data st = (Raise e, sent st req).
Proof.
  intros req Hremote Hcls. rewrite _request_eq. cbv zeta. fold req.
  by rewrite Hremote, Hcls.
Qed.

(** ** The surface of the remote API *)

Lemma login_not_in_surface :
  Forall (fun me => me.2 <> "/api/v2/auth/login") api_surface.
Proof. apply (bool_decide_unpack _). vm_compute. exact I. Qed.

(** X9. Whatever sequence of lifecycle operations a caller runs, every
    request it sends uses the client's timeout and cookies and goes to one
    of the seven endpoints of the table with the method listed there; in
    particular none of them is a login request (no re-authentication). *)
Theorem lifecycle_stays_on_api_surface (ops : list operation) (st : State) :
  let new := drop (List.length (trace st))
                  (trace (calls get_torrent_hash remote ops st)) in
  Forall (api_request (self st)) new
  ∧ Forall (fun r => req_url r <> req_url (login_request (self st))) new.
Proof.
  intros new. subst new.
  destruct (surface_calls get_torrent_hash remote ops st)
    as (_ & (new & -> & Hall) & _).
  rewrite drop_app_length. split; [exact Hall|].
  eapply Forall_impl; [exact Hall|].
  intros r (_ & _ & method & endpoint & Hin & _ & Hurl) Heq.
  rewrite Hurl in Heq. simpl in Heq. apply String.app_inj in Heq.
  pose proof login_not_in_surface as Hno. rewrite Forall_forall in Hno.
  exact (Hno _ Hin Heq).
Qed.

(** ** Cancel, pause, resume *)

(** The shape shared by the three operations: announce, dispatch a POST,
    report. *)
Lemma post_operation_eq (before after : string) endpoint (data : form) st :
  (log INFO (Msg before);;
   _request remote "POST" endpoint None (Some data);;
   log INFO (Msg after)) st
  = match _request remote "POST" endpoint None (Some data)
            (logged st INFO (Msg before)) with
    | (Ok _, st1) => (Ok tt, logged st1 INFO (Msg after))
    | (Raise e, st1) => (Raise e, st1)
    end.
Proof.
  run. destruct (_request _ _ _ _ _ _) as [[response|e] st1]; reflexivity.
Qed.

Lemma post_operation_outcome (before after : string) endpoint (data : form) st :
  let req := mkRequest "POST" (base_url (self st) +:+ endpoint) None (Some data)
               (sid_cookies (self st)) (timeout (self st)) in
  let run := (log INFO (Msg before);;
              _request remote "POST" endpoint None (Some data);;
              log INFO (Msg after)) st in
  trace run.2 = trace st ++ [req]
  ∧ (run.1 = Ok tt
     <-> exists response,
           remote (trace st) req = Ok response ∧ status_code response < 400)
  ∧ (run.1 = Ok tt ->
     logs run.2 = logs st ++ [mkLog INFO (Msg before); mkLog INFO (Msg after)]).
Proof.
  intros req run0. subst run0. rewrite post_operation_eq.
  set (st0 := logged st INFO (Msg before)).
  destruct (_request remote "POST" endpoint None (Some data) st0)
    as [[response|e] st1] eqn:Heq.
  - destruct (_request_ok_inv _ _ _ _ _ _ _ Heq) as (Hremote & Hcode & ->).
    simpl. split; [reflexivity|]. split.
    + split; [intros _; by exists response|reflexivity].
    + intros _. by rewrite <- app_assoc.
  - destruct (_request_raise_inv _ _ _ _ _ _ _ Heq) as [Htr Hno].
    simpl. split; [exact Htr|]. split; [|discriminate].
    split; [discriminate|].
    intros (response & Hremote & Hcode). destruct Hno. by exists response.
Qed.

Lemma post_operation_failure_log (before after : string) endpoint (data : form)
    st e :
  let run := (log INFO (Msg before);;
              _request remote "POST" endpoint None (Some data);;
              log INFO (Msg after)) st in
  run.1 = Raise e ->
  logs run.2 = logs st ++ [mkLog INFO (Msg before)]
  \/ exists cause,
       logs run.2
       = logs st ++ [mkLog INFO (Msg before);
                     mkLog ERROR
                       (Msg ("Decypharr request failed: " +:+ exn_str cause))].
Proof.
  intros run0. subst run0. rewrite post_operation_eq, _request_eq. cbv zeta.
  destruct (remote _ _) as [response|cause].
  - destruct (status_code response =? 403);
      [|destruct (status_code response >=? 400)]; simpl;
      first [discriminate | intros _; by left].
  - destruct (isinstance cause RequestException); simpl; intros _.
    + right. exists cause. by rewrite <- app_assoc.
    + by left.
Qed.

(** X10. Cancelling sends exactly one request: a POST to the delete
    endpoint whose form has two fields, [hashes] with the record's hash
    and [deleteFiles] with the literal text "true" or "false".  The call
    returns normally exactly when the service answers with a status below
    400, and it is only then that the removal is reported in the log: when
    the call raises, the log has gained the announcement and at most the
    error record of the dispatch. *)
Theorem remove_torrent_request (torrent : Torrent.t Quality)
    (delete_data : bool) (st : State) :
  let req := delete_request (self st) (Torrent.hash torrent) delete_data in
  let run := remove_torrent remote torrent delete_data st in
  trace run.2 = trace st ++ [req]
  ∧ (exists d,
        req_data req = Some d
        ∧ dom d = ({["hashes"; "deleteFiles"]} : gset string)
        ∧ d !! "hashes" = Some (Some (Torrent.hash torrent))
        ∧ d !! "deleteFiles"
          = Some (Some (if delete_data then "true" else "false")))
  ∧ (run.1 = Ok tt
     <-> exists response,
           remote (trace st) req = Ok response ∧ status_code response < 400)
  ∧ (run.1 = Ok tt ->
     logs run.2
     = logs st
       ++ [mkLog INFO (Msg ("Removing torrent from Decypharr: "
                            +:+ Torrent.title torrent));
           mkLog INFO (Msg ("Successfully removed torrent: "
                            +:+ Torrent.hash torrent))])
  ∧ (forall e,
        run.1 = Raise e ->
        logs run.2
        = logs st
          ++ [mkLog INFO (Msg ("Removing torrent from Decypharr: "
                               +:+ Torrent.title torrent))]
        \/ exists cause,
             logs run.2
             = logs st
               ++ [mkLog INFO (Msg ("Removing torrent from Decypharr: "
                                    +:+ Torrent.title torrent));
                   mkLog ERROR (Msg ("Decypharr request failed: "
                                     +:+ exn_str cause))]).
Proof.
  intros req run0. subst run0 req. unfold remove_torrent, delete_request.
  pose proof (post_operation_failure_log
                ("Removing torrent from Decypharr: " +:+ Torrent.title torrent)
                ("Successfully removed torrent: " +:+ Torrent.hash torrent)
                "/api/v2/torrents/delete"
                (<["deleteFiles" := Some (if delete_data then "true" else "false")]>
                   {["hashes" := Some (Torrent.hash torrent)]}) st) as Hfail.
  cbv zeta in Hfail.
  destruct (post_operation_outcome
              ("Removing torrent from Decypharr: " +:+ Torrent.title torrent)
              ("Successfully removed torrent: " +:+ Torrent.hash torrent)
              "/api/v2/torrents/delete"
              (<["deleteFiles" := Some (if delete_data then "true" else "false")]>
                 {["hashes" := Some (Torrent.hash torrent)]}) st)
    as (Htr & Hiff & Hlog).
  split; [exact Htr|]. split; [|split; [exact Hiff|split; [exact Hlog|exact Hfail]]].
  eexists. split; [reflexivity|]. split; [|split].
  - rewrite dom_insert_L, dom_singleton_L. set_solver.
  - by rewrite lookup_insert_ne, lookup_singleton_eq.
  - by rewrite lookup_insert_eq.
Qed.

(** X11. Pausing and resuming are symmetric: each sends exactly one POST,
    to the pause and to the resume endpoint, with the same one-field form
    that carries the record's hash; each returns normally exactly when the
    service answers with a status below 400.  Neither sends a status
    query. *)
Theorem pause_resume_symmetric (torrent : Torrent.t Quality) (st : State) :
  let h := Torrent.hash torrent in
  trace (pause_torrent remote torrent st).2
  = trace st ++ [pause_request (self st) h]
  ∧ trace (resume_torrent remote torrent st).2
    = trace st ++ [resume_request (self st) h]
  ∧ req_data (pause_request (self st) h) = Some {["hashes" := Some h]}
  ∧ req_data (resume_request (self st) h) = Some {["hashes" := Some h]}
  ∧ ((pause_torrent remote torrent st).1 = Ok tt
     <-> exists response,
           remote (trace st) (pause_request (self st) h) = Ok response
           ∧ status_code response < 400)
  ∧ ((resume_torrent remote torrent st).1 = Ok tt
     <-> exists response,
           remote (trace st) (resume_request (self st) h) = Ok response
           ∧ status_code response < 400).
Proof.
  intros h. subst h. unfold pause_torrent, resume_torrent.
  destruct (post_operation_outcome
              ("Pausing torrent: " +:+ Torrent.title torrent)
              ("Successfully paused torrent: " +:+ Torrent.hash torrent)
              "/api/v2/torrents/pause"
              {["hashes" := Some (Torrent.hash torrent)]} st)
    as (Htr1 & Hiff1 & _).
  destruct (post_operation_outcome
              ("Resuming torrent: " +:+ Torrent.title torrent)
              ("Successfully resumed torrent: " +:+ Torrent.hash torrent)
              "/api/v2/torrents/resume"
              {["hashes" := Some (Torrent.hash torrent)]} st)
    as (Htr2 & Hiff2 & _).
  repeat split; first [exact Htr1 | exact Htr2 | apply Hiff1 | apply Hiff2].
Qed.

(** ** List files *)

(** X12. When the dispatch succeeds, listing the files returns whatever the
    body parses to, unchanged and unlogged; a body that does not parse
    ([ValueError]) gives the empty list and an error record instead of an
    exception; any other exception of the parser is passed on. *)
Theorem get_torrent_files_outcomes (torrent : Torrent.t Quality) (st : State)
    (response : Response) :
  let req := files_request (self st) (Torrent.hash torrent) in
  remote (trace st) req = Ok response ->
  status_code response < 400 ->
  get_torrent_files remote torrent st
  = match json_result response with
    | Ok files => (Ok files, sent st req)
    | Raise e =>
        if isinstance e ValueError then
          (Ok (JArr []),
           logged (sent st req) ERROR (Msg "Failed to parse files response"))
        else (Raise e, sent st req)
    end.
Proof.
  intros req Hremote Hcode. unfold get_torrent_files.
  unfold mbind at 1. unfold M_bind at 1.
  rewrite (_request_ok "GET" "/api/v2/torrents/files"
             (Some {["hash" := Some (Torrent.hash torrent)]}) None st response
             Hremote Hcode).
  fold (files_request (self st) (Torrent.hash torrent)). fold req.
  unfold try_except, lift.
  destruct (json_result response) as [files|e]; [reflexivity|].
  destruct (isinstance e ValueError); reflexivity.
Qed.

(** ** Status query, continued *)

Lemma get_torrent_status_parsed (torrent : Torrent.t Quality) st response torrents :
  let req := info_request (self st) (Torrent.hash torrent) in
  remote (trace st) req = Ok response ->
  status_code response < 400 ->
  json_result response = Ok torrents ->
  truthy torrents = true ->
  get_torrent_status remote torrent st
  = match getitem0 torrents with
    | Raise e => (Raise e, sent st req)
    | Ok torrent_info =>
        match dict_get torrent_info "state" (JStr "unknown") with
        | Raise e => (Raise e, sent st req)
        | Ok state => resolve_state state (sent st req)
        end
    end.
Proof.
  intros req Hremote Hcode Hjson Htruthy.
  rewrite get_torrent_status_eq.
  rewrite (_request_ok "GET" "/api/v2/torrents/info"
             (Some {["hashes" := Some (Torrent.hash torrent)]}) None st response
             Hremote Hcode).
  fold (info_request (self st) (Torrent.hash torrent)). fold req.
  by rewrite Hjson, Htruthy.
Qed.

(** X13. When the body of a status query parses to a list whose first
    entry is an object with a [state] field, the answer is the resolution
    of that field alone: the remaining entries of the list and the other
    fields of the object play no part. *)
Theorem get_torrent_status_first_entry_decides (torrent : Torrent.t Quality)
    (st : State) (response : Response) (d : gmap string json)
    (rest : list json) (state : json) :
  let req := info_request (self st) (Torrent.hash torrent) in
  remote (trace st) req = Ok response ->
  status_code response < 400 ->
  json_result response = Ok (JArr (JObj d :: rest)) ->
  d !! "state" = Some state ->
  get_torrent_status remote torrent st = resolve_state state (sent st req).
Proof.
  intros req Hremote Hcode Hjson Hstate.
  rewrite (get_torrent_status_parsed torrent st response _ Hremote Hcode Hjson eq_refl).
  simpl. by rewrite Hstate.
Qed.

(** X14. When the first entry has no [state] field, the status query
    answers [unknown] and logs no warning: the default label "unknown" is
    itself in the table. *)
Theorem get_torrent_status_missing_state (torrent : Torrent.t Quality)
    (st : State) (response : Response) (d : gmap string json)
    (rest : list json) :
  let req := info_request (self st) (Torrent.hash torrent) in
  remote (trace st) req = Ok response ->
  status_code response < 400 ->
  json_result response = Ok (JArr (JObj d :: rest)) ->
  d !! "state" = None ->
  get_torrent_status remote torrent st = (Ok unknown, sent st req).
Proof.
  intros req Hremote Hcode Hjson Hstate.
  rewrite (get_torrent_status_parsed torrent st response _ Hremote Hcode Hjson eq_refl).
  simpl. by rewrite Hstate.
Qed.

(** X15. A body that parses to something other than a list of objects
    makes the status query raise: a non-empty JSON object gives a
    [KeyError] (it has no key 0), a list whose first entry is not an
    object gives an [AttributeError], and a non-zero number or [true]
    gives a [TypeError]. *)
Theorem get_torrent_status_unexpected_shape (torrent : Torrent.t Quality)
    (st : State) (response : Response) (torrents : json) :
  let req := info_request (self st) (Torrent.hash torrent) in
  remote (trace st) req = Ok response ->
  status_code response < 400 ->
  json_result response = Ok torrents ->
  truthy torrents = true ->
  (forall d, torrents = JObj d ->
             exists e, get_torrent_status remote torrent st = (Raise e, sent st req)
                       ∧ exn_cls e = KeyError)
  ∧ (forall x rest, torrents = JArr (x :: rest) -> (forall d, x <> JObj d) ->
                    exists e, get_torrent_status remote torrent st
                              = (Raise e, sent st req)
                              ∧ exn_cls e = AttributeError)
  ∧ ((exists z, torrents = JInt z) \/ (exists m e, torrents = JFloat m e)
     \/ (exists b, torrents = JBool b) ->
     exists e, get_torrent_status remote torrent st = (Raise e, sent st req)
               ∧ exn_cls e = TypeError).
Proof.
  intros req Hremote Hcode Hjson Htruthy.
  rewrite (get_torrent_status_parsed torrent st response _ Hremote Hcode Hjson Htruthy).
  repeat split.
  - intros d ->. by eexists.
  - intros x rest -> Hx. simpl.
    destruct x; try (by eexists). by destruct (Hx d).
  - intros [[z ->]|[(m & e & ->)|[b ->]]]; by eexists.
Qed.

(** X16. A [state] field that is not a string (a number, [null], a list,
    ...) is in none of the tuples: the answer is [unknown] and the value
    is reported in a warning. *)
Theorem get_torrent_status_non_string_state (torrent : Torrent.t Quality)
    (st : State) (response : Response) (d : gmap string json)
    (rest : list json) (state : json) :
  let req := info_request (self st) (Torrent.hash torrent) in
  remote (trace st) req = Ok response ->
  status_code response < 400 ->
  json_result response = Ok (JArr (JObj d :: rest)) ->
  d !! "state" = Some state ->
  (forall s, state <> JStr s) ->
  get_torrent_status remote torrent st
  = (Ok unknown,
     logged (sent st req) WARNING (MsgValue "Unknown Decypharr state: " state)).
Proof.
  intros req Hremote Hcode Hjson Hstate Hns.
  rewrite (get_torrent_status_parsed torrent st response _ Hremote Hcode Hjson eq_refl).
  simpl. rewrite Hstate. simpl.
  destruct state; try reflexivity. by destruct (Hns s).
Qed.

(** ** Submission, continued *)

Lemma download_torrent_after_hash (r : IndexerQueryResult.t Quality) h st :
  get_torrent_hash r = Ok h ->
  let st1 := logged st INFO
               (Msg ("Adding torrent to Decypharr: " +:+ IndexerQueryResult.title r)) in
  download_torrent get_torrent_hash remote r st
  = match _request remote "POST" "/api/v2/torrents/add" None
            (Some (submission_data (config (self st)) r)) st1 with
    | (Raise e, st2) => (Raise e, st2)
    | (Ok response, st2) =>
        if String.eqb (strip (text response)) "Ok." then
          let st3 := logged st2 INFO
                       (Msg ("Successfully added torrent to Decypharr: " +:+ h)) in
          match get_torrent_status remote (initial_torrent r h) st3 with
          | (Ok s, st4) => (Ok (Torrent.set_status (initial_torrent r h) s), st4)
          | (Raise e, st4) =>
              (Ok (initial_torrent r h),
               logged st4 WARNING
                      (Msg ("Could not get initial status: " +:+ exn_str e)))
          end
        else
          (Raise (mkExn RuntimeError
                    ("Failed to add torrent to Decypharr: "
                     +:+ strip (text response)) None),
           logged st2 ERROR
                  (Msg ("Failed to add torrent to Decypharr: "
                        +:+ strip (text response))))
    end.
Proof. intros Hhash. rewrite download_torrent_eq. cbv zeta. by rewrite Hhash. Qed.

Lemma get_torrent_status_trace (torrent : Torrent.t Quality) st :
  trace (get_torrent_status remote torrent st).2
  = trace st ++ [info_request (self st) (Torrent.hash torrent)].
Proof.
  rewrite get_torrent_status_eq.
  pose proof (_request_sends_one "GET" "/api/v2/torrents/info"
                (Some {["hashes" := Some (Torrent.hash torrent)]}) None st) as Hone.
  cbv zeta in Hone. destruct Hone as [Htr _].
  fold (info_request (self st) (Torrent.hash torrent)) in Htr.
  destruct (_request _ _ _ _ _ st) as [[response|e] st1]; simpl in Htr; [|exact Htr].
  destruct (json_result response) as [torrents|e].
  - destruct (truthy torrents); [|exact Htr].
    destruct (getitem0 torrents) as [torrent_info|e]; [|exact Htr].
    destruct (dict_get torrent_info _ _) as [state|e]; [|exact Htr].
    destruct (keeps_resolve_state state st1) as [_ (new & Hnew & _)].
    assert (Hres : trace (resolve_state state st1).2 = trace st1).
    { unfold resolve_state.
      repeat match goal with
             | |- context [if ?b then _ else _] => destruct b
             end; reflexivity. }
    by rewrite Hres.
  - destruct (isinstance e ValueError); exact Htr.
Qed.

(** X17. A submission sends a request exactly when the content hash can
    be derived.  If [get_torrent_hash] raises, its exception reaches the
    caller, only the announcement is logged and nothing is sent. *)
Theorem download_torrent_hash_failure (r : IndexerQueryResult.t Quality)
    (st : State) :
  ((exists e, get_torrent_hash r = Raise e)
   <-> trace (download_torrent get_torrent_hash remote r st).2 = trace st)
  ∧ (forall e,
        get_torrent_hash r = Raise e ->
        download_torrent get_torrent_hash remote r st
        = (Raise e,
           logged st INFO
             (Msg ("Adding torrent to Decypharr: "
                   +:+ IndexerQueryResult.title r)))).
Proof.
  assert (Hfail : forall e,
             get_torrent_hash r = Raise e ->
             download_torrent get_torrent_hash remote r st
             = (Raise e,
                logged st INFO
                  (Msg ("Adding torrent to Decypharr: "
                        +:+ IndexerQueryResult.title r)))).
  { intros e Hhash. rewrite download_torrent_eq. cbv zeta. by rewrite Hhash. }
  split; [|exact Hfail]. split.
  - intros [e Hhash]. by rewrite (Hfail e Hhash).
  - intros Htrace. destruct (get_torrent_hash r) as [h|e] eqn:Hhash;
      [|by exists e]. exfalso.
    destruct (download_torrent_first_request get_torrent_hash remote r h st Hhash)
      as [rest Hsent].
    rewrite Hsent in Htrace. apply (f_equal List.length) in Htrace.
    rewrite length_app in Htrace. simpl in Htrace. lia.
Qed.

(** X18. A submission that fails after the hash was derived, for whatever
    reason (transport, error status, body other than the acknowledgment),
    has sent the add request and nothing else: no status query follows. *)
Theorem download_torrent_failure_single_request
    (r : IndexerQueryResult.t Quality) (h : string) (e : exn) (st st' : State) :
  get_torrent_hash r = Ok h ->
  download_torrent get_torrent_hash remote r st = (Raise e, st') ->
  trace st' = trace st ++ [add_request (self st) r]
  ∧ self st' = self st.
Proof.
  intros Hhash. rewrite (download_torrent_after_hash r h st Hhash). cbv zeta.
  set (st1 := logged st INFO _).
  pose proof (_request_sends_one "POST" "/api/v2/torrents/add" None
                (Some (submission_data (config (self st)) r)) st1) as Hone.
  cbv zeta in Hone. destruct Hone as [Htr Hself].
  change (trace st1) with (trace st) in Htr.
  change (self st1) with (self st) in Htr, Hself.
  fold (add_request (self st) r) in Htr.
  destruct (_request _ _ _ _ _ st1) as [[response|e'] st2]; simpl in Htr, Hself.
  - destruct (String.eqb _ _).
    + destruct (get_torrent_status _ _ _) as [[s|e'] st4]; discriminate.
    + intros [= <- <-]. by split.
  - intros [= <- <-]. by split.
Qed.

(** X19. A submission that returns a record has sent exactly two requests,
    the add request and then one status query keyed by the hash the
    record carries; the record has the title and quality of the query
    result and is not marked as imported. *)
Theorem download_torrent_success_two_requests
    (r : IndexerQueryResult.t Quality) (h : string) (t : Torrent.t Quality)
    (st st' : State) :
  get_torrent_hash r = Ok h ->
  download_torrent get_torrent_hash remote r st = (Ok t, st') ->
  trace st' = trace st ++ [add_request (self st) r;
                           info_request (self st) (Torrent.hash t)]
  ∧ Torrent.hash t = h
  ∧ Torrent.title t = IndexerQueryResult.title r
  ∧ Torrent.quality t = IndexerQueryResult.quality r
  ∧ Torrent.imported t = false.
Proof.
  intros Hhash. rewrite (download_torrent_after_hash r h st Hhash). cbv zeta.
  set (st1 := logged st INFO _).
  pose proof (_request_sends_one "POST" "/api/v2/torrents/add" None
                (Some (submission_data (config (self st)) r)) st1) as Hone.
  cbv zeta in Hone. destruct Hone as [Htr Hself].
  change (trace st1) with (trace st) in Htr.
  change (self st1) with (self st) in Htr, Hself.
  fold (add_request (self st) r) in Htr.
  destruct (_request _ _ _ _ _ st1) as [[response|e'] st2];
    simpl in Htr, Hself; [|discriminate].
  destruct (String.eqb _ _); [|discriminate].
  set (st3 := logged st2 INFO _).
  pose proof (get_torrent_status_trace (initial_torrent r h) st3) as Htr3.
  change (trace st3) with (trace st2) in Htr3.
  change (self st3) with (self st2) in Htr3.
  rewrite Htr, Hself in Htr3. simpl in Htr3.
  destruct (get_torrent_status _ _ _) as [[s|e'] st4]; simpl in Htr3;
    intros [= <- <-]; simpl; rewrite Htr3, <- app_assoc; by repeat split.
Qed.

(** X20. After an acknowledged submission, a status query that answers is
    what sets the status of the returned record. *)
Theorem download_torrent_status_refined
    (r : IndexerQueryResult.t Quality) (h : string) (st st4 : State)
    (response : Response) (s : TorrentStatus) :
  get_torrent_hash r = Ok h ->
  remote (trace st) (add_request (self st) r) = Ok response ->
  status_code response < 400 ->
  strip (text response) = "Ok." ->
  get_torrent_status remote (initial_torrent r h) (after_acknowledgment st r h)
  = (Ok s, st4) ->
  exists t,
    download_torrent get_torrent_hash remote r st = (Ok t, st4)
    ∧ Torrent.status t = s
    ∧ Torrent.hash t = h.
Proof.
  intros Hhash Hremote Hcode Hbody Hstatus.
  rewrite (download_torrent_after_hash r h st Hhash). cbv zeta.
  rewrite (add_request_dispatch remote _ _ _ Hremote Hcode), Hbody. simpl.
  fold (after_acknowledgment st r h). rewrite Hstatus.
  eexists. split; [reflexivity|]. by split.
Qed.

(** X22. Given the hash and an answer with a status below 400, a
    submission returns a record exactly when the body is the text "Ok."
    with nothing but whitespace before and after it. *)
Theorem download_torrent_accepts_padded_acknowledgment
    (r : IndexerQueryResult.t Quality) (h : string) (st : State)
    (response : Response) :
  get_torrent_hash r = Ok h ->
  remote (trace st) (add_request (self st) r) = Ok response ->
  status_code response < 400 ->
  (exists t st', download_torrent get_torrent_hash remote r st = (Ok t, st'))
  <-> exists pre post,
        text response = pre +:+ "Ok." +:+ post
        ∧ all_chars is_space pre = true
        ∧ all_chars is_space post = true.
Proof.
  intros Hhash Hremote Hcode. rewrite <- strip_acknowledgment.
  rewrite (download_torrent_after_hash r h st Hhash). cbv zeta.
  rewrite (add_request_dispatch remote _ _ _ Hremote Hcode).
  destruct (String.eqb_spec (strip (text response)) "Ok.") as [He|Hne].
  - split; [done|]. intros _.
    destruct (get_torrent_status _ _ _) as [[s|e] st4]; by eexists _, _.
  - split; [|done]. intros (t & st' & Habs). discriminate.
Qed.

(** ** Health check, continued *)

(** X21. The health check sends exactly one request, the GET of the
    version endpoint, and answers [True] exactly when the service replies
    with a status below 400; an error status, a transport failure and any
    other exception of the session all give [False]. *)
Theorem health_check_by_remote (st : State) :
  trace (health_check remote st).2 = trace st ++ [version_request (self st)]
  ∧ ((health_check remote st).1 = Ok true
     <-> exists response,
           remote (trace st) (version_request (self st)) = Ok response
           ∧ status_code response < 400)
  ∧ ((health_check remote st).1 = Ok false
     <-> ~ exists response,
           remote (trace st) (version_request (self st)) = Ok response
           ∧ status_code response < 400).
Proof.
  unfold health_check. run.
  destruct (_request remote "GET" "/api/v2/app/version" None None st)
    as [[response|e] st1] eqn:Heq; simpl.
  - destruct (_request_ok_inv _ _ _ _ _ _ _ Heq) as (Hremote & Hcode & ->).
    fold (version_request (self st)) in *.
    split; [reflexivity|]. split.
    + split; [intros _; by exists response|reflexivity].
    + split; [discriminate|]. intros Hno. destruct Hno. by exists response.
  - destruct (_request_raise_inv _ _ _ _ _ _ _ Heq) as [Htr Hno].
    fold (version_request (self st)) in *.
    split; [exact Htr|]. split.
    + split; [discriminate|].
      intros (response & Hremote & Hcode). destruct Hno. by exists response.
    + split; [intros _; exact Hno|reflexivity].
Qed.

End Further.

(** ** The further statements at concrete inputs *)

Lemma construction_login_other_status_witness :
  (__init__ Fixture.teapot Sample.cfg [] []).1
  = Raise (mkExn RuntimeError "Authentication failed: I'm a teapot" None).
Proof.
  assert (H403 : status_code (Sample.plain 418 "I'm a teapot") <> 403) by (simpl; lia).
  assert (H200 : status_code (Sample.plain 418 "I'm a teapot") <> 200) by (simpl; lia).
  by rewrite (construction_login_other_status Fixture.teapot Sample.cfg [] []
                (Sample.plain 418 "I'm a teapot") eq_refl eq_refl eq_refl H403 H200).
Defined.

Lemma construction_login_unreachable_witness :
  (__init__ Sample.down Sample.cfg [] []).1
  = Raise (mkExn RuntimeError
             "Decypharr authentication failed: connection refused"
             (Some Sample.connection_refused)).
Proof.
  by rewrite (construction_login_unreachable Sample.down Sample.cfg [] []
                Sample.connection_refused eq_refl eq_refl eq_refl eq_refl).
Defined.

Lemma login_session_cookie_attached_witness :
  exists me st',
    __init__ Fixture.login_with_cookie Sample.cfg [] [] = (Ok me, st')
    ∧ _cookie me = Some Fixture.sid
    ∧ Forall (fun r => req_cookies r = Some {["SID" := Fixture.sid]})
        (drop (List.length (trace st'))
           (trace (calls Sample.get_hash Fixture.login_with_cookie
                     [HealthCheck; Pause Sample.torrent] st'))).
Proof.
  destruct (login_session_cookie_attached Sample.get_hash
              Fixture.login_with_cookie Sample.cfg [] []
              (mkResponse 200 "Ok." Fixture.sid_jar (Raise Sample.not_json))
              Fixture.sid eq_refl eq_refl eq_refl eq_refl eq_refl)
    as (me & st' & Heq & _ & Hcookie & _ & _ & _ & Hall).
  exists me, st'. split; [exact Heq|]. split; [exact Hcookie|apply Hall].
Defined.


Lemma login_conflicting_session_cookies_witness :
  (__init__ Fixture.login_with_two_cookies Sample.cfg [] []).1
  = Raise (mkExn CookieConflictError
             "There are multiple cookies with name, 'SID'" None).
Proof.
  rewrite (login_conflicting_session_cookies Fixture.login_with_two_cookies
             Sample.cfg [] []
             (mkResponse 200 "Ok." Fixture.double_jar (Raise Sample.not_json))
             [] [mkCookie "lang" (Some "en") "decypharr.local" "/"] []
             (mkCookie "SID" (Some Fixture.sid) "decypharr.local" "/")
             (mkCookie "SID" (Some "0f3a") "decypharr.local" "/api")
             Fixture.sid eq_refl eq_refl eq_refl eq_refl eq_refl
             eq_refl eq_refl eq_refl).
  reflexivity.
Defined.

Lemma construction_without_credentials_witness :
  (__init__ Sample.down Fixture.cfg_slashes [] []).1
  = Ok (fresh_client Fixture.cfg_slashes)
  ∧ trace (__init__ Sample.down Fixture.cfg_slashes [] []).2 = [].
Proof.
  by rewrite (proj2 (construction_without_credentials Sample.down
                       Fixture.cfg_slashes [] []) eq_refl).
Defined.

Lemma constructed_client_base_url_witness :
  exists me st',
    __init__ Sample.down Fixture.cfg_slashes [] [] = (Ok me, st')
    ∧ base_url me = "http://decypharr:8282"
    ∧ last_char (base_url me) <> Some "/"%char.
Proof.
  eexists _, _. split; [reflexivity|]. split; [reflexivity|].
  exact (proj1 (proj2 (proj2 (constructed_client_base_url Sample.down
                                Fixture.cfg_slashes [] [] _ _ eq_refl)))).
Defined.

Lemma _request_foreign_exception_witness :
  (_request Fixture.crashing "GET" "/api/v2/app/version" None None Sample.st0).1
  = Raise (mkExn TypeError "unhashable type: 'dict'" None).
Proof.
  by rewrite (_request_foreign_exception Fixture.crashing "GET"
                "/api/v2/app/version" None None Sample.st0 _ eq_refl eq_refl).
Defined.

Lemma get_torrent_files_outcomes_witness :
  (get_torrent_files (Fixture.answering Fixture.files_text Fixture.files_body)
     Sample.torrent Sample.st0).1
  = Ok Fixture.files_body.
Proof.
  assert (Hcode : status_code (Sample.parsed 200 Fixture.files_text
                                 Fixture.files_body) < 400) by (simpl; lia).
  by rewrite (get_torrent_files_outcomes
                (Fixture.answering Fixture.files_text Fixture.files_body)
                Sample.torrent Sample.st0 _ eq_refl Hcode).
Defined.

Lemma get_torrent_status_first_entry_decides_witness :
  (get_torrent_status
     (Fixture.answering Fixture.two_entries_text Fixture.two_entries)
     Sample.torrent Sample.st0).1
  = Ok finished.
Proof.
  assert (Hcode : status_code (Sample.parsed 200 Fixture.two_entries_text
                                 Fixture.two_entries) < 400) by (simpl; lia).
  by rewrite (get_torrent_status_first_entry_decides
                (Fixture.answering Fixture.two_entries_text Fixture.two_entries)
                Sample.torrent Sample.st0 _ _ _ (JStr "stalledUP")
                eq_refl Hcode eq_refl eq_refl).
Defined.

Lemma get_torrent_status_missing_state_witness :
  get_torrent_status
    (Fixture.answering Fixture.files_text Fixture.files_body)
    Sample.torrent Sample.st0
  = (Ok unknown,
     sent Sample.st0 (info_request (self Sample.st0) (Torrent.hash Sample.torrent))).
Proof.
  assert (Hcode : status_code (Sample.parsed 200 Fixture.files_text
                                 Fixture.files_body) < 400) by (simpl; lia).
  exact (get_torrent_status_missing_state
           (Fixture.answering Fixture.files_text Fixture.files_body)
           Sample.torrent Sample.st0 _ _ _ eq_refl Hcode eq_refl eq_refl).
Defined.

Lemma get_torrent_status_unexpected_shape_witness :
  exists e,
    (get_torrent_status
       (Fixture.answering Fixture.object_text Fixture.object_body)
       Sample.torrent Sample.st0).1 = Raise e
    ∧ exn_cls e = KeyError.
Proof.
  assert (Hcode : status_code (Sample.parsed 200 Fixture.object_text
                                 Fixture.object_body) < 400) by (simpl; lia).
  assert (Htruthy : truthy Fixture.object_body = true)
    by (vm_compute; reflexivity).
  destruct (get_torrent_status_unexpected_shape
              (Fixture.answering Fixture.object_text Fixture.object_body)
              Sample.torrent Sample.st0 _ _ eq_refl Hcode eq_refl Htruthy)
    as (Hobj & _).
  destruct (Hobj _ eq_refl) as (e & Heq & Hcls).
  exists e. rewrite Heq. split; [reflexivity|exact Hcls].
Defined.

Lemma get_torrent_status_non_string_state_witness :
  (get_torrent_status
     (Fixture.answering Fixture.numeric_state_text Fixture.numeric_state)
     Sample.torrent Sample.st0).1
  = Ok unknown.
Proof.
  assert (Hcode : status_code (Sample.parsed 200 Fixture.numeric_state_text
                                 Fixture.numeric_state) < 400) by (simpl; lia).
  assert (Hns : forall s, JInt 3 <> JStr s) by discriminate.
  by rewrite (get_torrent_status_non_string_state
                (Fixture.answering Fixture.numeric_state_text Fixture.numeric_state)
                Sample.torrent Sample.st0 _ _ _ (JInt 3)
                eq_refl Hcode eq_refl eq_refl Hns).
Defined.

Lemma download_torrent_hash_failure_witness :
  trace (download_torrent Fixture.no_hash Sample.acknowledging
           Sample.movie Sample.st0).2 = []
  ∧ (download_torrent Fixture.no_hash Sample.acknowledging
       Sample.movie Sample.st0).1
    = Raise (mkExn RuntimeError "Failed to download torrent file" None).
Proof.
  by rewrite (proj2 (download_torrent_hash_failure Fixture.no_hash
                       Sample.acknowledging Sample.movie Sample.st0) _ eq_refl).
Defined.

Lemma download_torrent_failure_single_request_witness :
  exists e st',
    download_torrent Sample.get_hash Sample.broken Sample.movie Sample.st0
    = (Raise e, st')
    ∧ trace st' = [add_request (self Sample.st0) Sample.movie].
Proof.
  destruct (download_torrent Sample.get_hash Sample.broken Sample.movie Sample.st0)
    as [res st'] eqn:Heq.
  assert (Hres : res = Raise (mkExn RuntimeError
                   "Decypharr API error 500: Internal Server Error" None)).
  { change res with (res, st').1. rewrite <- Heq. vm_compute. reflexivity. }
  subst res. eexists _, st'. split; [reflexivity|].
  exact (proj1 (download_torrent_failure_single_request Sample.get_hash
                  Sample.broken Sample.movie Sample.movie_hash _
                  Sample.st0 st' eq_refl Heq)).
Defined.

Lemma download_torrent_success_two_requests_witness :
  exists t st',
    download_torrent Sample.get_hash Sample.acknowledging Sample.movie Sample.st0
    = (Ok t, st')
    ∧ trace st' = [add_request (self Sample.st0) Sample.movie;
                   info_request (self Sample.st0) (Torrent.hash t)].
Proof.
  destruct (download_torrent Sample.get_hash Sample.acknowledging
              Sample.movie Sample.st0) as [res st'] eqn:Heq.
  assert (Hres : res = Ok (Torrent.set_status Sample.torrent downloading)).
  { change res with (res, st').1. rewrite <- Heq. vm_compute. reflexivity. }
  subst res. eexists _, st'. split; [reflexivity|].
  exact (proj1 (download_torrent_success_two_requests Sample.get_hash
                  Sample.acknowledging Sample.movie Sample.movie_hash _
                  Sample.st0 st' eq_refl Heq)).
Defined.

Lemma download_torrent_status_refined_witness :
  exists t,
    (download_torrent Sample.get_hash Sample.acknowledging
       Sample.movie Sample.st0).1 = Ok t
    ∧ Torrent.status t = downloading.
Proof.
  assert (Hcode : status_code (Sample.plain 200 "Ok.") < 400) by (simpl; lia).
  destruct (get_torrent_status Sample.acknowledging Sample.torrent
              (after_acknowledgment Sample.st0 Sample.movie Sample.movie_hash))
    as [res st4] eqn:Hstatus.
  assert (Hres : res = Ok downloading).
  { change res with (res, st4).1. rewrite <- Hstatus. vm_compute. reflexivity. }
  subst res.
  destruct (download_torrent_status_refined Sample.get_hash Sample.acknowledging
              Sample.movie Sample.movie_hash Sample.st0 st4
              (Sample.plain 200 "Ok.") downloading
              eq_refl eq_refl Hcode eq_refl Hstatus) as (t & Heq & Hst & _).
  exists t. by rewrite Heq.
Defined.

Lemma download_torrent_accepts_padded_acknowledgment_witness :
  exists t st',
    download_torrent Sample.get_hash Sample.acknowledging_newline
      Sample.movie Sample.st0 = (Ok t, st').
Proof.
  assert (Hcode : status_code (Sample.plain 200 Sample.ok_newline) < 400)
    by (simpl; lia).
  apply (download_torrent_accepts_padded_acknowledgment Sample.get_hash
           Sample.acknowledging_newline Sample.movie Sample.movie_hash
           Sample.st0 (Sample.plain 200 Sample.ok_newline) eq_refl eq_refl Hcode).
  exists EmptyString, (String "010"%char EmptyString). by repeat split.
Defined.
